(** * Work item link types (package [link], file workitem/link/type.go)

    A shallow embedding of the link-type model of the work-item tracker:
    the stored record [WorkItemLinkType], its structural equality, the
    creation validation, the topology check and the two converters between
    the stored record and the REST representation of package [app]. *)

#[local] Set Warnings "-stdlib-vector".
From Stdlib Require Import String ZArith Bool List Strings.Byte Vector VectorEq.
Import ListNotations.
#[local] Open Scope string_scope.

(** ** satori/go.uuid: a UUID is a [16]byte array *)
Module satoriuuid.

Definition UUID : Type := Vector.t byte 16.

(** [uuid.Nil]: the zero value of the array type. *)
Definition Nil : UUID := Vector.const x00 16.

(** [uuid.Equal(u1, u2)] is [bytes.Equal(u1[:], u2[:])]; the array
    comparison [u1 == u2] of Go is the same element-wise test. *)
Definition Equal (u1 u2 : UUID) : bool := VectorEq.eqb byte Byte.eqb u1 u2.

(** The UUID all of whose sixteen bytes are [b]; 11111111-1111-... is
    [fill x11]. *)
Definition fill (b : byte) : UUID := Vector.const b 16.

End satoriuuid.

(** ** gormsupport.Lifecycle *)
Module gormsupport.

(** Modelled from the spec: package gormsupport (the [Lifecycle] struct
    embedded in every stored entity and its [Equal] method) is absent from
    the sources.  The spec calls it the lifecycle metadata, "creation/update
    timestamps treated as opaque equal-comparable values"; a time stamp is an
    instant, here a [Z], and the deletion stamp is optional. *)
Record Lifecycle : Type := mkLifecycle {
  CreatedAt : Z;
  UpdatedAt : Z;
  DeletedAt : option Z
}.

Definition Equal (l o : Lifecycle) : bool :=
  Z.eqb (CreatedAt l) (CreatedAt o) &&
  Z.eqb (UpdatedAt l) (UpdatedAt o) &&
  match DeletedAt l, DeletedAt o with
  | None, None => true
  | Some a, Some b => Z.eqb a b
  | _, _ => false
  end.

End gormsupport.

(** ** Package errors and pkg/errors *)
Module errors.

(** The [interface{}] values that type.go hands to the error constructor:
    the untyped [nil], a string, or a UUID. *)
Inductive value : Type :=
| VNil
| VString (s : string)
| VUUID (u : satoriuuid.UUID).

(** Modelled from the spec: package errors is absent from the sources.  Per
    the spec a BadParameter error "identifies the offending field name and,
    where applicable, the expected value set"; the constructor call
    [NewBadParameterError(param, value)] and the builder [.Expected(e)] are
    the two forms type.go uses. *)
Record BadParameterError : Type := mkBadParameterError {
  parameter : string;
  actual : value;
  expectedValue : option string
}.

Definition NewBadParameterError (param : string) (v : value)
  : BadParameterError :=
  {| parameter := param; actual := v; expectedValue := None |}.

Definition Expected (e : BadParameterError) (expected : string)
  : BadParameterError :=
  {| parameter := parameter e; actual := actual e;
     expectedValue := Some expected |}.

(** A Go [error] as type.go produces it: a [BadParameterError], possibly
    wrapped by [errs.WithStack] (pkg/errors), which records the call stack
    and keeps the wrapped error as its cause. *)
Inductive error : Type :=
| BadParameter (e : BadParameterError)
| WithStack (cause : error).

(** [errs.Cause]: strips the stack wrappers. *)
Fixpoint Cause (e : error) : BadParameterError :=
  match e with
  | BadParameter b => b
  | WithStack c => Cause c
  end.

End errors.

(** ** Package app: the REST representation of a link type *)
Module app.

Import satoriuuid.

(** Modelled from the spec: package app (generated from the API design) is
    absent from the sources.  The spec describes "a partial-update
    representation where every attribute is optional"; the shape below is
    the one type.go builds in ConvertLinkTypeFromModel and reads in
    ConvertLinkTypeToModel: a pointer is an [option], and the identifier of
    a relation is a plain UUID except in [RelationSpacesData], where
    type.go stores [&t.SpaceID] and reads [*rel.Space.Data.ID]. *)
Record WorkItemLinkTypeAttributes : Type := mkAttributes {
  attrName : option string;
  attrDescription : option string;
  attrVersion : option Z;
  attrForwardName : option string;
  attrReverseName : option string;
  attrTopology : option string
}.

Record RelationWorkItemLinkCategoryData : Type := mkLinkCategoryData {
  lcType : string;
  lcID : UUID
}.

Record RelationWorkItemLinkCategory : Type := mkLinkCategory {
  lcData : option RelationWorkItemLinkCategoryData
}.

Record RelationWorkItemTypeData : Type := mkWorkItemTypeData {
  witType : string;
  witID : UUID
}.

Record RelationWorkItemType : Type := mkWorkItemType {
  witData : option RelationWorkItemTypeData
}.

Record RelationSpacesData : Type := mkSpacesData {
  spType : option string;
  spID : option UUID
}.

Record GenericLinks : Type := mkGenericLinks {
  linksSelf : option string
}.

Record RelationSpaces : Type := mkSpaces {
  spData : option RelationSpacesData;
  spLinks : option GenericLinks
}.

Record WorkItemLinkTypeRelationships : Type := mkRelationships {
  relLinkCategory : option RelationWorkItemLinkCategory;
  relSourceType : option RelationWorkItemType;
  relTargetType : option RelationWorkItemType;
  relSpace : option RelationSpaces
}.

Record WorkItemLinkTypeData : Type := mkData {
  dataType : string;
  dataID : option UUID;
  dataAttributes : option WorkItemLinkTypeAttributes;
  dataRelationships : option WorkItemLinkTypeRelationships
}.

Record WorkItemLinkTypeSingle : Type := mkSingle {
  Data : option WorkItemLinkTypeData
}.

End app.

(** ** Package link *)
Module link.

Import satoriuuid errors.

Definition TopologyNetwork : string := "network".
Definition TopologyDirectedNetwork : string := "directed_network".
Definition TopologyDependency : string := "dependency".
Definition TopologyTree : string := "tree".

(** [strPtrIsNilOrContentIsEqual]: a [*string] is an [option string]; the
    function only ever compares for nil and reads the contents. *)
Definition strPtrIsNilOrContentIsEqual (l r : option string) : bool :=
  match l, r with
  | None, Some _ => false
  | Some _, None => false
  | None, None => true
  | Some a, Some b => a =? b
  end.

(** The stored link type.  Go's [int] version is a [Z]: it is only copied
    and compared. *)
Record WorkItemLinkType : Type := mkWorkItemLinkType {
  Lifecycle : gormsupport.Lifecycle;
  ID : UUID;
  Name : string;
  Description : option string;
  Version : Z;
  Topology : string;
  SourceTypeID : UUID;
  TargetTypeID : UUID;
  ForwardName : string;
  ReverseName : string;
  LinkCategoryID : UUID;
  SpaceID : UUID
}.

(** [convert.Equaler] as this file populates it: both [WorkItemLinkType]
    and [*WorkItemLinkType] are declared to implement the interface. *)
Inductive Equaler : Type :=
| EqualerValue (u : WorkItemLinkType)
| EqualerPointer (u : option WorkItemLinkType).

(** [func (t WorkItemLinkType) Equal(u convert.Equaler) bool] *)
Definition Equal (t : WorkItemLinkType) (u : Equaler) : bool :=
  match u with
  | EqualerPointer _ => false
  | EqualerValue other =>
    if negb (gormsupport.Equal (Lifecycle t) (Lifecycle other)) then false
    else if negb (satoriuuid.Equal (ID t) (ID other)) then false
    else if negb (Name t =? Name other) then false
    else if negb (Version t =? Version other)%Z then false
    else if negb (strPtrIsNilOrContentIsEqual (Description t)
                    (Description other)) then false
    else if negb (Topology t =? Topology other) then false
    else if negb (satoriuuid.Equal (SourceTypeID t) (SourceTypeID other))
         then false
    else if negb (satoriuuid.Equal (TargetTypeID t) (TargetTypeID other))
         then false
    else if negb (ForwardName t =? ForwardName other) then false
    else if negb (ReverseName t =? ReverseName other) then false
    else if negb (satoriuuid.Equal (LinkCategoryID t)
                    (LinkCategoryID other)) then false
    else if negb (satoriuuid.Equal (SpaceID t) (SpaceID other)) then false
    else true
  end.

(** [CheckValidTopology]; a nil error is [None]. *)
Definition CheckValidTopology (t : string) : option error :=
  if negb (t =? TopologyNetwork) && negb (t =? TopologyDirectedNetwork)
     && negb (t =? TopologyDependency) && negb (t =? TopologyTree)
  then Some (BadParameter
               (Expected (NewBadParameterError "topolgy" (VString t))
                  (TopologyNetwork ++ "|" ++ TopologyDirectedNetwork ++ "|"
                   ++ TopologyDependency ++ "|" ++ TopologyTree)))
  else None.

(** [CheckValidForCreation], on the record its receiver points to. *)
Definition CheckValidForCreation (t : WorkItemLinkType) : option error :=
  if Name t =? EmptyString then
    Some (BadParameter (NewBadParameterError "name" (VString (Name t))))
  else if satoriuuid.Equal (SourceTypeID t) Nil then
    Some (BadParameter
            (NewBadParameterError "source_type_name" (VUUID (SourceTypeID t))))
  else if satoriuuid.Equal (TargetTypeID t) Nil then
    Some (BadParameter
            (NewBadParameterError "target_type_name" (VUUID (TargetTypeID t))))
  else if ForwardName t =? EmptyString then
    Some (BadParameter
            (NewBadParameterError "forward_name" (VString (ForwardName t))))
  else if ReverseName t =? EmptyString then
    Some (BadParameter
            (NewBadParameterError "reverse_name" (VString (ReverseName t))))
  else match CheckValidTopology (Topology t) with
  | Some err => Some (WithStack err)
  | None =>
    if satoriuuid.Equal (LinkCategoryID t) Nil then
      Some (BadParameter
              (NewBadParameterError "link_category_id"
                 (VUUID (LinkCategoryID t))))
    else if satoriuuid.Equal (SpaceID t) Nil then
      Some (BadParameter
              (NewBadParameterError "space_id" (VUUID (SpaceID t))))
    else None
  end.

(** [TableName] *)
Definition TableName (t : WorkItemLinkType) : string :=
  "work_item_link_types".

(** *** Control flow of a Go function that updates [*out] in place

    [ConvertLinkTypeToModel] writes through the pointer [out] and leaves by
    [return] in the middle of its body, so a statement maps the record behind
    [out] to what happens next: control falls through with the record as it now
    is, the function returns an error value (nil is [None]) with the record as
    the caller will find it, or a nil pointer is dereferenced and the
    goroutine panics. *)
Inductive flow : Type :=
| Next (out : WorkItemLinkType)
| Return (err : option error) (out : WorkItemLinkType)
| Panic (out : WorkItemLinkType).

Definition stmt : Type := WorkItemLinkType -> flow.

Definition seq (s k : stmt) : stmt :=
  fun out => match s out with
             | Next out' => k out'
             | Return e out' => Return e out'
             | Panic out' => Panic out'
             end.

Notation "s ;; k" := (seq s k) (at level 61, right associativity).

Definition skip : stmt := Next.
Definition ret (e : option error) : stmt := Return e.
Definition assign (f : WorkItemLinkType -> WorkItemLinkType) : stmt :=
  fun out => Next (f out).

(** [if p != nil { ... *p ... }] *)
Definition ifNotNil {A : Type} (p : option A) (body : A -> stmt) : stmt :=
  match p with
  | Some a => body a
  | None => skip
  end.

(** A dereference [*p] that the code does not guard. *)
Definition deref {A : Type} (p : option A) (body : A -> stmt) : stmt :=
  match p with
  | Some a => body a
  | None => Panic
  end.

(** The assignments [out.F = v]. *)
Definition set_ID (v : UUID) (o : WorkItemLinkType) : WorkItemLinkType :=
  mkWorkItemLinkType (Lifecycle o) v (Name o) (Description o) (Version o)
    (Topology o) (SourceTypeID o) (TargetTypeID o) (ForwardName o)
    (ReverseName o) (LinkCategoryID o) (SpaceID o).
Definition set_Name (v : string) (o : WorkItemLinkType) : WorkItemLinkType :=
  mkWorkItemLinkType (Lifecycle o) (ID o) v (Description o) (Version o)
    (Topology o) (SourceTypeID o) (TargetTypeID o) (ForwardName o)
    (ReverseName o) (LinkCategoryID o) (SpaceID o).
Definition set_Description (v : option string) (o : WorkItemLinkType)
  : WorkItemLinkType :=
  mkWorkItemLinkType (Lifecycle o) (ID o) (Name o) v (Version o)
    (Topology o) (SourceTypeID o) (TargetTypeID o) (ForwardName o)
    (ReverseName o) (LinkCategoryID o) (SpaceID o).
Definition set_Version (v : Z) (o : WorkItemLinkType) : WorkItemLinkType :=
  mkWorkItemLinkType (Lifecycle o) (ID o) (Name o) (Description o) v
    (Topology o) (SourceTypeID o) (TargetTypeID o) (ForwardName o)
    (ReverseName o) (LinkCategoryID o) (SpaceID o).
Definition set_Topology (v : string) (o : WorkItemLinkType)
  : WorkItemLinkType :=
  mkWorkItemLinkType (Lifecycle o) (ID o) (Name o) (Description o) (Version o)
    v (SourceTypeID o) (TargetTypeID o) (ForwardName o)
    (ReverseName o) (LinkCategoryID o) (SpaceID o).
Definition set_SourceTypeID (v : UUID) (o : WorkItemLinkType)
  : WorkItemLinkType :=
  mkWorkItemLinkType (Lifecycle o) (ID o) (Name o) (Description o) (Version o)
    (Topology o) v (TargetTypeID o) (ForwardName o)
    (ReverseName o) (LinkCategoryID o) (SpaceID o).
Definition set_TargetTypeID (v : UUID) (o : WorkItemLinkType)
  : WorkItemLinkType :=
  mkWorkItemLinkType (Lifecycle o) (ID o) (Name o) (Description o) (Version o)
    (Topology o) (SourceTypeID o) v (ForwardName o)
    (ReverseName o) (LinkCategoryID o) (SpaceID o).
Definition set_ForwardName (v : string) (o : WorkItemLinkType)
  : WorkItemLinkType :=
  mkWorkItemLinkType (Lifecycle o) (ID o) (Name o) (Description o) (Version o)
    (Topology o) (SourceTypeID o) (TargetTypeID o) v
    (ReverseName o) (LinkCategoryID o) (SpaceID o).
Definition set_ReverseName (v : string) (o : WorkItemLinkType)
  : WorkItemLinkType :=
  mkWorkItemLinkType (Lifecycle o) (ID o) (Name o) (Description o) (Version o)
    (Topology o) (SourceTypeID o) (TargetTypeID o) (ForwardName o)
    v (LinkCategoryID o) (SpaceID o).
Definition set_LinkCategoryID (v : UUID) (o : WorkItemLinkType)
  : WorkItemLinkType :=
  mkWorkItemLinkType (Lifecycle o) (ID o) (Name o) (Description o) (Version o)
    (Topology o) (SourceTypeID o) (TargetTypeID o) (ForwardName o)
    (ReverseName o) v (SpaceID o).
Definition set_SpaceID (v : UUID) (o : WorkItemLinkType) : WorkItemLinkType :=
  mkWorkItemLinkType (Lifecycle o) (ID o) (Name o) (Description o) (Version o)
    (Topology o) (SourceTypeID o) (TargetTypeID o) (ForwardName o)
    (ReverseName o) (LinkCategoryID o) v.

(** [ConvertLinkTypeToModel(in, out)]: the statement run on the record behind
    [out].  The body tests [attrs != nil] and [rel != nil] again after the
    three guards, as the source does. *)
Definition ConvertLinkTypeToModel (in_ : app.WorkItemLinkTypeSingle) : stmt :=
  match app.Data in_ with
  | None =>
    ret (Some (BadParameter
                 (Expected (NewBadParameterError "data" VNil) "not <nil>")))
  | Some data =>
  match app.dataAttributes data with
  | None =>
    ret (Some (BadParameter
                 (Expected (NewBadParameterError "data.attributes" VNil)
                    "not <nil>")))
  | Some _ =>
  match app.dataRelationships data with
  | None =>
    ret (Some (BadParameter
                 (Expected (NewBadParameterError "data.relationships" VNil)
                    "not <nil>")))
  | Some _ =>
    let attrs := app.dataAttributes data in
    let rel := app.dataRelationships data in
    ifNotNil (app.dataID data) (fun id => assign (set_ID id)) ;;
    ifNotNil attrs (fun attrs =>
      ifNotNil (app.attrName attrs) (fun name =>
        (if name =? EmptyString then
           ret (Some (BadParameter
                        (NewBadParameterError "data.attributes.name"
                           (VString name))))
         else skip) ;;
        assign (set_Name name)) ;;
      ifNotNil (app.attrDescription attrs) (fun d =>
        assign (set_Description (Some d))) ;;
      ifNotNil (app.attrVersion attrs) (fun v => assign (set_Version v)) ;;
      ifNotNil (app.attrForwardName attrs) (fun name =>
        (if name =? EmptyString then
           ret (Some (BadParameter
                        (NewBadParameterError "data.attributes.forward_name"
                           (VString name))))
         else skip) ;;
        assign (set_ForwardName name)) ;;
      ifNotNil (app.attrReverseName attrs) (fun name =>
        (if name =? EmptyString then
           ret (Some (BadParameter
                        (NewBadParameterError "data.attributes.reverse_name"
                           (VString name))))
         else skip) ;;
        assign (set_ReverseName name)) ;;
      ifNotNil (app.attrTopology attrs) (fun t =>
        match CheckValidTopology t with
        | Some err => ret (Some (WithStack err))
        | None => skip
        end ;;
        assign (set_Topology t))) ;;
    ifNotNil rel (fun rel =>
      ifNotNil (app.relLinkCategory rel) (fun lc =>
        ifNotNil (app.lcData lc) (fun d =>
          assign (set_LinkCategoryID (app.lcID d))))) ;;
    ifNotNil rel (fun rel =>
      ifNotNil (app.relSourceType rel) (fun st =>
        ifNotNil (app.witData st) (fun d =>
          assign (set_SourceTypeID (app.witID d))))) ;;
    ifNotNil rel (fun rel =>
      ifNotNil (app.relTargetType rel) (fun tg =>
        ifNotNil (app.witData tg) (fun d =>
          assign (set_TargetTypeID (app.witID d))))) ;;
    ifNotNil rel (fun rel =>
      ifNotNil (app.relSpace rel) (fun sp =>
        ifNotNil (app.spData sp) (fun d =>
          deref (app.spID d) (fun id => assign (set_SpaceID id))))) ;;
    ret None
  end end end.

(** *** ConvertLinkTypeFromModel

    The request, [rest.AbsoluteURL], [app.SpaceHref] and the three endpoint
    names of package link live outside type.go; the converter takes them as
    they are. *)
Section FromModel.

Variable RequestData : Type.
Variable AbsoluteURL : RequestData -> string -> string.
Variable SpaceHref : string -> string.
Variable UUIDString : UUID -> string.
Variables EndpointWorkItemLinkTypes EndpointWorkItemLinkCategories
  EndpointWorkItemTypes : string.

Definition ConvertLinkTypeFromModel (request : RequestData)
  (t : WorkItemLinkType) : app.WorkItemLinkTypeSingle :=
  let spaceType := "spaces" in
  let spaceSelfURL := AbsoluteURL request (SpaceHref (UUIDString (SpaceID t))) in
  app.mkSingle (Some
    (app.mkData EndpointWorkItemLinkTypes (Some (ID t))
       (Some (app.mkAttributes
                (Some (Name t))
                (Description t)
                (Some (Version t))
                (Some (ForwardName t))
                (Some (ReverseName t))
                (Some (Topology t))))
       (Some (app.mkRelationships
                (Some (app.mkLinkCategory
                         (Some (app.mkLinkCategoryData
                                  EndpointWorkItemLinkCategories
                                  (LinkCategoryID t)))))
                (Some (app.mkWorkItemType
                         (Some (app.mkWorkItemTypeData EndpointWorkItemTypes
                                  (SourceTypeID t)))))
                (Some (app.mkWorkItemType
                         (Some (app.mkWorkItemTypeData EndpointWorkItemTypes
                                  (TargetTypeID t)))))
                (Some (app.mkSpaces
                         (Some (app.mkSpacesData (Some spaceType)
                                  (Some (SpaceID t))))
                         (Some (app.mkGenericLinks (Some spaceSelfURL))))))))).

End FromModel.

End link.

(** ** Sample data *)
Module samples.

Import satoriuuid link.

Definition created : gormsupport.Lifecycle :=
  gormsupport.mkLifecycle 1000 1000 None.

(** A link type that passes creation validation. *)
Definition bugBlocker : WorkItemLinkType :=
  mkWorkItemLinkType created (fill x11) "Bug blocker" None 0
    TopologyNetwork (fill x22) (fill x33) "blocks" "blocked by"
    (fill x44) (fill x55).

(** An update that carries the three parts and nothing inside them. *)
Definition noAttributes : app.WorkItemLinkTypeAttributes :=
  app.mkAttributes None None None None None None.

Definition noRelationships : app.WorkItemLinkTypeRelationships :=
  app.mkRelationships None None None None.

Definition update (id : option UUID) (a : app.WorkItemLinkTypeAttributes)
  (r : app.WorkItemLinkTypeRelationships) : app.WorkItemLinkTypeSingle :=
  app.mkSingle (Some (app.mkData "workitemlinktypes" id (Some a) (Some r))).

End samples.

(** * Vocabulary of the statements

    Predicates and accessors the properties below are stated with; none of
    them is part of the program. *)

Import satoriuuid errors link.

Definition validTopology (t : string) : Prop :=
  t = "network" \/ t = "directed_network" \/ t = "dependency" \/ t = "tree".

(** A record passes creation validation exactly when all eight fields are
    in order. *)
Definition validForCreation (t : WorkItemLinkType) : Prop :=
  Name t <> EmptyString /\ SourceTypeID t <> Nil /\ TargetTypeID t <> Nil
  /\ ForwardName t <> EmptyString /\ ReverseName t <> EmptyString
  /\ validTopology (Topology t)
  /\ LinkCategoryID t <> Nil /\ SpaceID t <> Nil.

(** The parameter name an error reports, if there is an error. *)
Definition reported (e : option error) : option string :=
  option_map (fun err => parameter (Cause err)) e.

(** The eight checks of [CheckValidForCreation] in source order, each with
    the label its error carries and whether the check fails. *)
Definition creationChecks (t : WorkItemLinkType) : list (string * bool) :=
  [ ("name", Name t =? EmptyString);
    ("source_type_name", satoriuuid.Equal (SourceTypeID t) Nil);
    ("target_type_name", satoriuuid.Equal (TargetTypeID t) Nil);
    ("forward_name", ForwardName t =? EmptyString);
    ("reverse_name", ReverseName t =? EmptyString);
    ("topolgy", match CheckValidTopology (Topology t) with
                | Some _ => true | None => false end);
    ("link_category_id", satoriuuid.Equal (LinkCategoryID t) Nil);
    ("space_id", satoriuuid.Equal (SpaceID t) Nil) ].

Fixpoint firstFailing (checks : list (string * bool)) : option string :=
  match checks with
  | [] => None
  | (label, failed) :: rest => if failed then Some label else firstFailing rest
  end.

Definition missingPart (part : string) : error :=
  BadParameter (mkBadParameterError part VNil (Some "not <nil>")).

Definition emptyError (label : string) : error :=
  BadParameter (NewBadParameterError label (VString EmptyString)).

(** The attribute is present and empty. *)
Definition emptyGiven (p : option string) : bool :=
  match p with
  | Some name => name =? EmptyString
  | None => false
  end.

(** The topology error of a present, invalid topology. *)
Definition invalidGiven (p : option string) : option error :=
  match p with
  | Some t => CheckValidTopology t
  | None => None
  end.

(** The identifier and the attributes an update carries, wherever its parts
    are present. *)
Definition givenID (in_ : app.WorkItemLinkTypeSingle) : option UUID :=
  match app.Data in_ with
  | Some data => app.dataID data
  | None => None
  end.

Definition givenAttribute {A : Type}
  (attribute : app.WorkItemLinkTypeAttributes -> option A)
  (in_ : app.WorkItemLinkTypeSingle) : option A :=
  match app.Data in_ with
  | Some data => match app.dataAttributes data with
                 | Some attrs => attribute attrs
                 | None => None
                 end
  | None => None
  end.

(** The identifiers a relationships object really carries. *)
Definition givenLinkCategory (rel : app.WorkItemLinkTypeRelationships)
  : option UUID :=
  match app.relLinkCategory rel with
  | Some lc => option_map app.lcID (app.lcData lc)
  | None => None
  end.

Definition givenSourceType (rel : app.WorkItemLinkTypeRelationships)
  : option UUID :=
  match app.relSourceType rel with
  | Some st => option_map app.witID (app.witData st)
  | None => None
  end.

Definition givenTargetType (rel : app.WorkItemLinkTypeRelationships)
  : option UUID :=
  match app.relTargetType rel with
  | Some tg => option_map app.witID (app.witData tg)
  | None => None
  end.

Definition givenSpace (rel : app.WorkItemLinkTypeRelationships)
  : option UUID :=
  match app.relSpace rel with
  | Some sp => match app.spData sp with
               | Some d => app.spID d
               | None => None
               end
  | None => None
  end.

(** The space relation has a data object whose ID pointer is nil. *)
Definition spaceIDMissing (rel : app.WorkItemLinkTypeRelationships) : bool :=
  match app.relSpace rel with
  | Some sp => match app.spData sp with
               | Some d => match app.spID d with
                           | Some _ => false
                           | None => true
                           end
               | None => false
               end
  | None => false
  end.

(** The value a guarded assignment leaves in a field: the one the update
    carries if it carries one, the stored one otherwise. *)
Definition orKeep {A : Type} (p : option A) (old : A) : A :=
  match p with
  | Some a => a
  | None => old
  end.

(** [out.F = *p] guarded by [p != nil]: the record after the statement. *)
Definition upd {A : Type} (set : A -> WorkItemLinkType -> WorkItemLinkType)
  (p : option A) (o : WorkItemLinkType) : WorkItemLinkType :=
  match p with
  | Some a => set a o
  | None => o
  end.

(** What [ConvertLinkTypeToModel] does once the three parts of the update
    are known to be there: the tests in the order the body makes them, each
    with the record as it stands at that point. *)
Definition outcome (data : app.WorkItemLinkTypeData)
  (attrs : app.WorkItemLinkTypeAttributes)
  (rel : app.WorkItemLinkTypeRelationships) (out : WorkItemLinkType) : flow :=
  let o1 := upd set_ID (app.dataID data) out in
  if emptyGiven (app.attrName attrs) then
    Return (Some (emptyError "data.attributes.name")) o1
  else
  let o2 := upd set_Version (app.attrVersion attrs)
              (upd (fun d => set_Description (Some d))
                 (app.attrDescription attrs)
                 (upd set_Name (app.attrName attrs) o1)) in
  if emptyGiven (app.attrForwardName attrs) then
    Return (Some (emptyError "data.attributes.forward_name")) o2
  else
  let o3 := upd set_ForwardName (app.attrForwardName attrs) o2 in
  if emptyGiven (app.attrReverseName attrs) then
    Return (Some (emptyError "data.attributes.reverse_name")) o3
  else
  let o4 := upd set_ReverseName (app.attrReverseName attrs) o3 in
  match invalidGiven (app.attrTopology attrs) with
  | Some err => Return (Some (WithStack err)) o4
  | None =>
    let o5 := upd set_TargetTypeID (givenTargetType rel)
                (upd set_SourceTypeID (givenSourceType rel)
                   (upd set_LinkCategoryID (givenLinkCategory rel)
                      (upd set_Topology (app.attrTopology attrs) o4))) in
    if spaceIDMissing rel then Panic o5
    else Return None (upd set_SpaceID (givenSpace rel) o5)
  end.

(** The record behind [out] when the function is left, however it is
    left. *)
Definition final (f : flow) : WorkItemLinkType :=
  match f with
  | Next o => o
  | Return _ o => o
  | Panic o => o
  end.

(** The attributes pass the four tests of the body: no name that is present
    is empty, and a topology that is present is one of the four literals. *)
Definition acceptable (attrs : app.WorkItemLinkTypeAttributes) : Prop :=
  app.attrName attrs <> Some EmptyString
  /\ app.attrForwardName attrs <> Some EmptyString
  /\ app.attrReverseName attrs <> Some EmptyString
  /\ (forall t, app.attrTopology attrs = Some t -> validTopology t).

(** The space relation has a data object without an ID. *)
Definition spaceLacksID (rel : app.WorkItemLinkTypeRelationships) : Prop :=
  exists sp d,
    app.relSpace rel = Some sp /\ app.spData sp = Some d
    /\ app.spID d = None.

(** The parameter names [ConvertLinkTypeToModel] can report. *)
Definition conversionLabels : list string :=
  [ "data"; "data.attributes"; "data.relationships";
    "data.attributes.name"; "data.attributes.forward_name";
    "data.attributes.reverse_name"; "topolgy" ].

(** The text of the expected-value note of a topology error. *)
Definition topologyExpected : string :=
  "network|directed_network|dependency|tree".

(** * Properties *)

(** ** Equality tests decide equality *)

Lemma byte_eqb_eq (x y : byte) : Byte.eqb x y = true <-> x = y.
Proof.
  split; [apply Byte.byte_dec_bl | apply Byte.byte_dec_lb].
Qed.

Lemma uuid_Equal_eq (a b : UUID) : satoriuuid.Equal a b = true <-> a = b.
Proof.
  unfold satoriuuid.Equal. apply VectorEq.eqb_eq. exact byte_eqb_eq.
Qed.

Lemma uuid_Equal_refl (a : UUID) : satoriuuid.Equal a a = true.
Proof. now apply uuid_Equal_eq. Qed.

Lemma uuid_Equal_neq (a b : UUID) : satoriuuid.Equal a b = false <-> a <> b.
Proof.
  split.
  - intros E H. apply uuid_Equal_eq in H. congruence.
  - intros H. destruct (satoriuuid.Equal a b) eqn:E; [|reflexivity].
    apply uuid_Equal_eq in E. contradiction.
Qed.

Lemma Lifecycle_Equal_eq (l o : gormsupport.Lifecycle) :
  gormsupport.Equal l o = true <-> l = o.
Proof.
  destruct l as [c u d], o as [c' u' d']; unfold gormsupport.Equal; simpl.
  rewrite !andb_true_iff, !Z.eqb_eq.
  split.
  - intros [[-> ->] H]. destruct d, d'; try discriminate; [|reflexivity].
    apply Z.eqb_eq in H. now subst.
  - intros H; injection H as -> -> ->.
    repeat split. destruct d'; [apply Z.eqb_refl | reflexivity].
Qed.

Lemma strPtr_eq (l r : option string) :
  strPtrIsNilOrContentIsEqual l r = true <-> l = r.
Proof.
  destruct l, r; simpl; try (split; congruence).
  rewrite String.eqb_eq. split; congruence.
Qed.

(** [Equal] on two records is the boolean conjunction of the twelve
    field tests. *)
Lemma Equal_conj (t u : WorkItemLinkType) :
  Equal t (EqualerValue u) =
  gormsupport.Equal (Lifecycle t) (Lifecycle u)
  && satoriuuid.Equal (ID t) (ID u)
  && (Name t =? Name u)
  && (Version t =? Version u)%Z
  && strPtrIsNilOrContentIsEqual (Description t) (Description u)
  && (Topology t =? Topology u)
  && satoriuuid.Equal (SourceTypeID t) (SourceTypeID u)
  && satoriuuid.Equal (TargetTypeID t) (TargetTypeID u)
  && (ForwardName t =? ForwardName u)
  && (ReverseName t =? ReverseName u)
  && satoriuuid.Equal (LinkCategoryID t) (LinkCategoryID u)
  && satoriuuid.Equal (SpaceID t) (SpaceID u).
Proof.
  unfold Equal.
  repeat match goal with
         | |- context [negb ?b] => destruct b; simpl; try reflexivity
         end.
Qed.

Lemma Equal_eq (t u : WorkItemLinkType) :
  Equal t (EqualerValue u) = true <-> t = u.
Proof.
  rewrite Equal_conj, !andb_true_iff, !uuid_Equal_eq, !String.eqb_eq,
    Z.eqb_eq, Lifecycle_Equal_eq, strPtr_eq.
  destruct t, u; simpl. split.
  - intros H; decompose [and] H; subst; reflexivity.
  - intros H; injection H; intros; subst; repeat split.
Qed.

(** ** Structural equality *)

(** C7: two optional strings compare equal under
    [strPtrIsNilOrContentIsEqual] exactly when both are unset, or both are set
    and their contents are identical; one set and one unset compare unequal;
    and this test alone decides [Equal] on two link types that differ at most
    in their description. *)
Theorem strPtrIsNilOrContentIsEqual_spec (l r : option string) :
  (strPtrIsNilOrContentIsEqual l r = true <->
   (l = None /\ r = None) \/ (exists a b, l = Some a /\ r = Some b /\ a = b))
  /\ (forall a, strPtrIsNilOrContentIsEqual (Some a) None = false)
  /\ (forall b, strPtrIsNilOrContentIsEqual None (Some b) = false)
  /\ (forall t,
        Equal (set_Description l t) (EqualerValue (set_Description r t))
        = strPtrIsNilOrContentIsEqual l r).
Proof.
  split; [|split; [|split]]; try reflexivity.
  - destruct l as [a|], r as [b|]; simpl.
    + rewrite String.eqb_eq. split.
      * intros ->. right. now exists b, b.
      * intros [[H _]|(a' & b' & Ha & Hb & E)]; [discriminate | congruence].
    + split; [discriminate|].
      intros [[H _]|(a' & b' & _ & Hb & _)]; discriminate.
    + split; [discriminate|].
      intros [[_ H]|(a' & b' & Ha & _ & _)]; discriminate.
    + split; [now left | reflexivity].
  - intros t. rewrite Equal_conj. simpl.
    rewrite (proj2 (Lifecycle_Equal_eq _ _) eq_refl), !uuid_Equal_refl,
      !String.eqb_refl, Z.eqb_refl.
    simpl. now rewrite !andb_true_r.
Qed.

(** C6: [Equal] on link types is reflexive and symmetric, and two records
    that differ in any attribute (lifecycle metadata, ID, name, description,
    version, topology, source type id, target type id, forward name, reverse
    name, link category id or space id) are unequal; in particular records
    with different identifiers are never equal. *)
Theorem Equal_reflexive_symmetric_sensitive :
  (forall t, Equal t (EqualerValue t) = true)
  /\ (forall t u, Equal t (EqualerValue u) = Equal u (EqualerValue t))
  /\ (forall t u,
        Lifecycle t <> Lifecycle u \/ ID t <> ID u \/ Name t <> Name u
        \/ Description t <> Description u \/ Version t <> Version u
        \/ Topology t <> Topology u \/ SourceTypeID t <> SourceTypeID u
        \/ TargetTypeID t <> TargetTypeID u \/ ForwardName t <> ForwardName u
        \/ ReverseName t <> ReverseName u
        \/ LinkCategoryID t <> LinkCategoryID u \/ SpaceID t <> SpaceID u ->
        Equal t (EqualerValue u) = false)
  /\ (forall t u, ID t <> ID u -> Equal t (EqualerValue u) = false).
Proof.
  assert (Hsens : forall t u, t <> u -> Equal t (EqualerValue u) = false).
  { intros t u H. destruct (Equal t (EqualerValue u)) eqn:E; [|reflexivity].
    apply Equal_eq in E. contradiction. }
  repeat split.
  - intros t. now apply Equal_eq.
  - intros t u. destruct (Equal u (EqualerValue t)) eqn:E.
    + apply Equal_eq in E. subst. now apply Equal_eq.
    + apply Hsens. intros Heq. subst.
      rewrite (proj2 (Equal_eq _ _) eq_refl) in E. discriminate.
  - intros t u H. apply Hsens. intros ->.
    repeat (destruct H as [H|H]; [now apply H|]). now apply H.
  - intros t u H. apply Hsens. congruence.
Qed.

Lemma Equal_reflexive_symmetric_sensitive_witness :
  Equal samples.bugBlocker
    (EqualerValue (set_ID (fill x99) samples.bugBlocker)) = false
  /\ Equal samples.bugBlocker
       (EqualerValue (set_Description (Some "blocks a bug")
                        samples.bugBlocker)) = false.
Proof.
  split.
  - apply (proj2 (proj2 (proj2 Equal_reflexive_symmetric_sensitive))).
    intros H. apply uuid_Equal_eq in H. vm_compute in H. discriminate.
  - apply (proj1 (proj2 (proj2 Equal_reflexive_symmetric_sensitive))).
    right; right; right; left. simpl. discriminate.
Defined.

(** ** Topology and creation validation *)

Lemma CheckValidTopology_ok (t : string) :
  CheckValidTopology t = None <-> validTopology t.
Proof.
  unfold CheckValidTopology, validTopology, TopologyNetwork,
    TopologyDirectedNetwork, TopologyDependency, TopologyTree.
  destruct (String.eqb_spec t "network") as [->|H1]; simpl; [tauto|].
  destruct (String.eqb_spec t "directed_network") as [->|H2]; simpl; [tauto|].
  destruct (String.eqb_spec t "dependency") as [->|H3]; simpl; [tauto|].
  destruct (String.eqb_spec t "tree") as [->|H4]; simpl; [tauto|].
  split; [discriminate | tauto].
Qed.

(** What a rejected topology gets back: the label the code writes, the
    rejected value, and the four literals joined by a bar. *)
Lemma CheckValidTopology_error (t : string) :
  ~ validTopology t ->
  CheckValidTopology t =
  Some (BadParameter
          (mkBadParameterError "topolgy" (VString t)
             (Some "network|directed_network|dependency|tree"))).
Proof.
  intros H. destruct (CheckValidTopology t) eqn:E.
  - unfold CheckValidTopology in E.
    destruct (_ && _) in E; [|discriminate].
    injection E as <-. reflexivity.
  - apply CheckValidTopology_ok in E. contradiction.
Qed.

(** C2: on a case variant of a valid literal, and on the empty string,
    [CheckValidTopology] answers with a BadParameter error that carries the
    four expected literals, but the field it names is spelt [topolgy]. *)
Theorem CheckValidTopology_names_topolgy :
  CheckValidTopology "Tree" =
  Some (BadParameter
          (mkBadParameterError "topolgy" (VString "Tree")
             (Some "network|directed_network|dependency|tree")))
  /\ CheckValidTopology EmptyString =
     Some (BadParameter
             (mkBadParameterError "topolgy" (VString EmptyString)
                (Some "network|directed_network|dependency|tree")))
  /\ CheckValidTopology "tree" = None.
Proof. repeat split. Qed.

(** The checks run in the listed order and the first failing one alone
    decides the error. *)
Lemma CheckValidForCreation_first_failing (t : WorkItemLinkType) :
  reported (CheckValidForCreation t) = firstFailing (creationChecks t).
Proof.
  unfold CheckValidForCreation, creationChecks, firstFailing.
  destruct (Name t =? EmptyString); [reflexivity|].
  destruct (satoriuuid.Equal (SourceTypeID t) Nil); [reflexivity|].
  destruct (satoriuuid.Equal (TargetTypeID t) Nil); [reflexivity|].
  destruct (ForwardName t =? EmptyString); [reflexivity|].
  destruct (ReverseName t =? EmptyString); [reflexivity|].
  destruct (CheckValidTopology (Topology t)) as [e|] eqn:E.
  - unfold CheckValidTopology in E.
    destruct (_ && _) in E; [|discriminate]. injection E as <-. reflexivity.
  - destruct (satoriuuid.Equal (LinkCategoryID t) Nil); [reflexivity|].
    destruct (satoriuuid.Equal (SpaceID t) Nil); reflexivity.
Qed.

Lemma CheckValidForCreation_ok (t : WorkItemLinkType) :
  CheckValidForCreation t = None <-> validForCreation t.
Proof.
  unfold CheckValidForCreation, validForCreation.
  rewrite <- CheckValidTopology_ok, <- !uuid_Equal_neq, <- !String.eqb_neq.
  destruct (Name t =? EmptyString); [intuition discriminate|].
  destruct (satoriuuid.Equal (SourceTypeID t) Nil); [intuition discriminate|].
  destruct (satoriuuid.Equal (TargetTypeID t) Nil); [intuition discriminate|].
  destruct (ForwardName t =? EmptyString); [intuition discriminate|].
  destruct (ReverseName t =? EmptyString); [intuition discriminate|].
  destruct (CheckValidTopology (Topology t)); [intuition discriminate|].
  destruct (satoriuuid.Equal (LinkCategoryID t) Nil);
    [intuition discriminate|].
  destruct (satoriuuid.Equal (SpaceID t) Nil); intuition discriminate.
Qed.

(** C1: on a record whose only defect is a nil source type id, a nil target
    type id or an invalid topology, the single error [CheckValidForCreation]
    returns names [source_type_name], [target_type_name] and [topolgy], none
    of which is the name of the failing field. *)
Theorem CheckValidForCreation_field_labels :
  reported (CheckValidForCreation (set_SourceTypeID Nil samples.bugBlocker))
  = Some "source_type_name"
  /\ reported (CheckValidForCreation
                 (set_TargetTypeID Nil samples.bugBlocker))
     = Some "target_type_name"
  /\ reported (CheckValidForCreation
                 (set_Topology "ring" samples.bugBlocker))
     = Some "topolgy"
  /\ CheckValidForCreation samples.bugBlocker = None.
Proof. repeat split. Qed.

(** ** The statements of ConvertLinkTypeToModel, one at a time *)

Lemma seq_assoc (s k m : stmt) (o : WorkItemLinkType) :
  ((s ;; k) ;; m) o = (s ;; (k ;; m)) o.
Proof. unfold seq. destruct (s o); reflexivity. Qed.

Lemma seq_assignIf {A : Type}
  (set : A -> WorkItemLinkType -> WorkItemLinkType) (p : option A)
  (k : stmt) (o : WorkItemLinkType) :
  (ifNotNil p (fun a => assign (set a)) ;; k) o = k (upd set p o).
Proof. destruct p; reflexivity. Qed.

Lemma seq_checked (label : string)
  (set : string -> WorkItemLinkType -> WorkItemLinkType) (p : option string)
  (k : stmt) (o : WorkItemLinkType) :
  (ifNotNil p (fun name =>
     (if name =? EmptyString then
        ret (Some (BadParameter (NewBadParameterError label (VString name))))
      else skip) ;;
     assign (set name)) ;; k) o
  = if emptyGiven p then Return (Some (emptyError label)) o
    else k (upd set p o).
Proof.
  destruct p as [name|]; [|reflexivity].
  unfold seq, ifNotNil, emptyGiven, emptyError; simpl.
  destruct (String.eqb_spec name EmptyString) as [->|]; reflexivity.
Qed.

Lemma seq_topology (p : option string) (k : stmt) (o : WorkItemLinkType) :
  (ifNotNil p (fun t =>
     match CheckValidTopology t with
     | Some err => ret (Some (WithStack err))
     | None => skip
     end ;;
     assign (set_Topology t)) ;; k) o
  = match invalidGiven p with
    | Some err => Return (Some (WithStack err)) o
    | None => k (upd set_Topology p o)
    end.
Proof.
  destruct p as [t|]; [|reflexivity].
  unfold seq, ifNotNil, invalidGiven; simpl.
  destruct (CheckValidTopology t); reflexivity.
Qed.

Lemma seq_linkCategory (rel : app.WorkItemLinkTypeRelationships)
  (k : stmt) (o : WorkItemLinkType) :
  (ifNotNil (Some rel) (fun rel =>
     ifNotNil (app.relLinkCategory rel) (fun lc =>
       ifNotNil (app.lcData lc) (fun d =>
         assign (set_LinkCategoryID (app.lcID d))))) ;; k) o
  = k (upd set_LinkCategoryID (givenLinkCategory rel) o).
Proof.
  unfold givenLinkCategory. simpl.
  destruct (app.relLinkCategory rel) as [lc|]; [|reflexivity]. simpl.
  destruct (app.lcData lc); reflexivity.
Qed.

Lemma seq_sourceType (rel : app.WorkItemLinkTypeRelationships)
  (k : stmt) (o : WorkItemLinkType) :
  (ifNotNil (Some rel) (fun rel =>
     ifNotNil (app.relSourceType rel) (fun st =>
       ifNotNil (app.witData st) (fun d =>
         assign (set_SourceTypeID (app.witID d))))) ;; k) o
  = k (upd set_SourceTypeID (givenSourceType rel) o).
Proof.
  unfold givenSourceType. simpl.
  destruct (app.relSourceType rel) as [st|]; [|reflexivity]. simpl.
  destruct (app.witData st); reflexivity.
Qed.

Lemma seq_targetType (rel : app.WorkItemLinkTypeRelationships)
  (k : stmt) (o : WorkItemLinkType) :
  (ifNotNil (Some rel) (fun rel =>
     ifNotNil (app.relTargetType rel) (fun tg =>
       ifNotNil (app.witData tg) (fun d =>
         assign (set_TargetTypeID (app.witID d))))) ;; k) o
  = k (upd set_TargetTypeID (givenTargetType rel) o).
Proof.
  unfold givenTargetType. simpl.
  destruct (app.relTargetType rel) as [tg|]; [|reflexivity]. simpl.
  destruct (app.witData tg); reflexivity.
Qed.

Lemma seq_space (rel : app.WorkItemLinkTypeRelationships)
  (k : stmt) (o : WorkItemLinkType) :
  (ifNotNil (Some rel) (fun rel =>
     ifNotNil (app.relSpace rel) (fun sp =>
       ifNotNil (app.spData sp) (fun d =>
         deref (app.spID d) (fun id => assign (set_SpaceID id))))) ;; k) o
  = if spaceIDMissing rel then Panic o
    else k (upd set_SpaceID (givenSpace rel) o).
Proof.
  unfold givenSpace, spaceIDMissing. simpl.
  destruct (app.relSpace rel) as [sp|]; [|reflexivity]. simpl.
  destruct (app.spData sp) as [d|]; [|reflexivity]. simpl.
  destruct (app.spID d); reflexivity.
Qed.

(** ** The whole function in straight-line form *)

Lemma seq_block {A : Type} (a : A) (body : A -> stmt) (k : stmt)
  (o : WorkItemLinkType) :
  (ifNotNil (Some a) body ;; k) o = (body a ;; k) o.
Proof. reflexivity. Qed.

Lemma ConvertLinkTypeToModel_outcome (in_ : app.WorkItemLinkTypeSingle)
  (data : app.WorkItemLinkTypeData) (attrs : app.WorkItemLinkTypeAttributes)
  (rel : app.WorkItemLinkTypeRelationships) (out : WorkItemLinkType) :
  app.Data in_ = Some data ->
  app.dataAttributes data = Some attrs ->
  app.dataRelationships data = Some rel ->
  ConvertLinkTypeToModel in_ out = outcome data attrs rel out.
Proof.
  intros Hd Ha Hr. unfold ConvertLinkTypeToModel, outcome.
  rewrite Hd, Ha, Hr. cbv zeta.
  rewrite seq_assignIf, seq_block.
  rewrite seq_assoc, seq_checked.
  destruct (emptyGiven (app.attrName attrs)); [reflexivity|].
  rewrite seq_assoc, seq_assignIf, seq_assoc, seq_assignIf.
  rewrite seq_assoc, seq_checked.
  destruct (emptyGiven (app.attrForwardName attrs)); [reflexivity|].
  rewrite seq_assoc, seq_checked.
  destruct (emptyGiven (app.attrReverseName attrs)); [reflexivity|].
  rewrite seq_topology.
  destruct (invalidGiven (app.attrTopology attrs)); [reflexivity|].
  rewrite seq_linkCategory, seq_sourceType, seq_targetType, seq_space.
  reflexivity.
Qed.

(** ** The record after a run of guarded assignments *)

Section Fields.

Variables (l : gormsupport.Lifecycle) (i s g c sp : UUID) (n t f r : string)
  (d : option string) (v : Z).

Lemma upd_ID (p : option UUID) :
  upd set_ID p (mkWorkItemLinkType l i n d v t s g f r c sp)
  = mkWorkItemLinkType l (orKeep p i) n d v t s g f r c sp.
Proof. destruct p; reflexivity. Qed.

Lemma upd_Name (p : option string) :
  upd set_Name p (mkWorkItemLinkType l i n d v t s g f r c sp)
  = mkWorkItemLinkType l i (orKeep p n) d v t s g f r c sp.
Proof. destruct p; reflexivity. Qed.

Lemma upd_Version (p : option Z) :
  upd set_Version p (mkWorkItemLinkType l i n d v t s g f r c sp)
  = mkWorkItemLinkType l i n d (orKeep p v) t s g f r c sp.
Proof. destruct p; reflexivity. Qed.

Lemma upd_Topology (p : option string) :
  upd set_Topology p (mkWorkItemLinkType l i n d v t s g f r c sp)
  = mkWorkItemLinkType l i n d v (orKeep p t) s g f r c sp.
Proof. destruct p; reflexivity. Qed.

Lemma upd_SourceTypeID (p : option UUID) :
  upd set_SourceTypeID p (mkWorkItemLinkType l i n d v t s g f r c sp)
  = mkWorkItemLinkType l i n d v t (orKeep p s) g f r c sp.
Proof. destruct p; reflexivity. Qed.

Lemma upd_TargetTypeID (p : option UUID) :
  upd set_TargetTypeID p (mkWorkItemLinkType l i n d v t s g f r c sp)
  = mkWorkItemLinkType l i n d v t s (orKeep p g) f r c sp.
Proof. destruct p; reflexivity. Qed.

Lemma upd_ForwardName (p : option string) :
  upd set_ForwardName p (mkWorkItemLinkType l i n d v t s g f r c sp)
  = mkWorkItemLinkType l i n d v t s g (orKeep p f) r c sp.
Proof. destruct p; reflexivity. Qed.

Lemma upd_ReverseName (p : option string) :
  upd set_ReverseName p (mkWorkItemLinkType l i n d v t s g f r c sp)
  = mkWorkItemLinkType l i n d v t s g f (orKeep p r) c sp.
Proof. destruct p; reflexivity. Qed.

Lemma upd_LinkCategoryID (p : option UUID) :
  upd set_LinkCategoryID p (mkWorkItemLinkType l i n d v t s g f r c sp)
  = mkWorkItemLinkType l i n d v t s g f r (orKeep p c) sp.
Proof. destruct p; reflexivity. Qed.

Lemma upd_SpaceID (p : option UUID) :
  upd set_SpaceID p (mkWorkItemLinkType l i n d v t s g f r c sp)
  = mkWorkItemLinkType l i n d v t s g f r c (orKeep p sp).
Proof. destruct p; reflexivity. Qed.

Lemma upd_Description (p : option string) :
  upd (fun a => set_Description (Some a)) p
    (mkWorkItemLinkType l i n d v t s g f r c sp)
  = mkWorkItemLinkType l i n (orKeep (option_map Some p) d) v t s g f r c sp.
Proof. destruct p; reflexivity. Qed.

End Fields.

Ltac fields_of_record :=
  rewrite ?upd_ID, ?upd_Name, ?upd_Description, ?upd_Version,
    ?upd_ForwardName, ?upd_ReverseName, ?upd_Topology, ?upd_LinkCategoryID,
    ?upd_SourceTypeID, ?upd_TargetTypeID, ?upd_SpaceID.

(** A run that reaches the end of the body found all three parts. *)
Lemma ConvertLinkTypeToModel_parts (in_ : app.WorkItemLinkTypeSingle)
  (out out' : WorkItemLinkType) :
  ConvertLinkTypeToModel in_ out = Return None out' ->
  exists data attrs rel,
    app.Data in_ = Some data /\ app.dataAttributes data = Some attrs
    /\ app.dataRelationships data = Some rel.
Proof.
  unfold ConvertLinkTypeToModel.
  destruct (app.Data in_) as [data|]; [|discriminate].
  destruct (app.dataAttributes data) as [attrs|] eqn:Ha; [|discriminate].
  destruct (app.dataRelationships data) as [rel|] eqn:Hr; [|discriminate].
  intros _. now exists data, attrs, rel.
Qed.

(** What a successful run tested on the way, and the record it leaves. *)
Lemma outcome_success (data : app.WorkItemLinkTypeData)
  (attrs : app.WorkItemLinkTypeAttributes)
  (rel : app.WorkItemLinkTypeRelationships) (out out' : WorkItemLinkType) :
  outcome data attrs rel out = Return None out' ->
  emptyGiven (app.attrName attrs) = false
  /\ emptyGiven (app.attrForwardName attrs) = false
  /\ emptyGiven (app.attrReverseName attrs) = false
  /\ invalidGiven (app.attrTopology attrs) = None
  /\ spaceIDMissing rel = false
  /\ out' =
     mkWorkItemLinkType (Lifecycle out)
       (orKeep (app.dataID data) (ID out))
       (orKeep (app.attrName attrs) (Name out))
       (orKeep (option_map Some (app.attrDescription attrs)) (Description out))
       (orKeep (app.attrVersion attrs) (Version out))
       (orKeep (app.attrTopology attrs) (Topology out))
       (orKeep (givenSourceType rel) (SourceTypeID out))
       (orKeep (givenTargetType rel) (TargetTypeID out))
       (orKeep (app.attrForwardName attrs) (ForwardName out))
       (orKeep (app.attrReverseName attrs) (ReverseName out))
       (orKeep (givenLinkCategory rel) (LinkCategoryID out))
       (orKeep (givenSpace rel) (SpaceID out)).
Proof.
  unfold outcome.
  destruct (emptyGiven (app.attrName attrs)); [discriminate|].
  destruct (emptyGiven (app.attrForwardName attrs)); [discriminate|].
  destruct (emptyGiven (app.attrReverseName attrs)); [discriminate|].
  destruct (invalidGiven (app.attrTopology attrs)); [discriminate|].
  destruct (spaceIDMissing rel); [discriminate|].
  intros H. injection H as <-. destruct out. fields_of_record.
  repeat split.
Qed.

(** Conversely, an update that passes the five tests is merged. *)
Lemma outcome_merged (data : app.WorkItemLinkTypeData)
  (attrs : app.WorkItemLinkTypeAttributes)
  (rel : app.WorkItemLinkTypeRelationships) (out : WorkItemLinkType) :
  emptyGiven (app.attrName attrs) = false ->
  emptyGiven (app.attrForwardName attrs) = false ->
  emptyGiven (app.attrReverseName attrs) = false ->
  invalidGiven (app.attrTopology attrs) = None ->
  spaceIDMissing rel = false ->
  outcome data attrs rel out =
  Return None
    (mkWorkItemLinkType (Lifecycle out)
       (orKeep (app.dataID data) (ID out))
       (orKeep (app.attrName attrs) (Name out))
       (orKeep (option_map Some (app.attrDescription attrs)) (Description out))
       (orKeep (app.attrVersion attrs) (Version out))
       (orKeep (app.attrTopology attrs) (Topology out))
       (orKeep (givenSourceType rel) (SourceTypeID out))
       (orKeep (givenTargetType rel) (TargetTypeID out))
       (orKeep (app.attrForwardName attrs) (ForwardName out))
       (orKeep (app.attrReverseName attrs) (ReverseName out))
       (orKeep (givenLinkCategory rel) (LinkCategoryID out))
       (orKeep (givenSpace rel) (SpaceID out))).
Proof.
  intros En Ef Er Et Es. unfold outcome. rewrite En, Ef, Er, Et, Es.
  destruct out. fields_of_record. reflexivity.
Qed.

(** ** ConvertLinkTypeToModel: the merge *)

(** C3: after a successful [ConvertLinkTypeToModel] every attribute and
    relationship identifier holds the value the update carries if the update
    carries one (a non-nil pointer; for a relationship, a non-nil relation
    with a non-nil data object), and exactly its prior stored value
    otherwise; the lifecycle metadata is never touched. *)
Theorem ConvertLinkTypeToModel_overwrites_only_present
  (in_ : app.WorkItemLinkTypeSingle) (out out' : WorkItemLinkType) :
  ConvertLinkTypeToModel in_ out = Return None out' ->
  exists data attrs rel,
    app.Data in_ = Some data /\ app.dataAttributes data = Some attrs
    /\ app.dataRelationships data = Some rel
    /\ Lifecycle out' = Lifecycle out
    /\ ID out' = orKeep (app.dataID data) (ID out)
    /\ Name out' = orKeep (app.attrName attrs) (Name out)
    /\ Description out' =
       match app.attrDescription attrs with
       | Some a => Some a
       | None => Description out
       end
    /\ Version out' = orKeep (app.attrVersion attrs) (Version out)
    /\ ForwardName out' = orKeep (app.attrForwardName attrs) (ForwardName out)
    /\ ReverseName out' = orKeep (app.attrReverseName attrs) (ReverseName out)
    /\ Topology out' = orKeep (app.attrTopology attrs) (Topology out)
    /\ LinkCategoryID out' =
       orKeep (givenLinkCategory rel) (LinkCategoryID out)
    /\ SourceTypeID out' = orKeep (givenSourceType rel) (SourceTypeID out)
    /\ TargetTypeID out' = orKeep (givenTargetType rel) (TargetTypeID out)
    /\ SpaceID out' = orKeep (givenSpace rel) (SpaceID out).
Proof.
  intros H.
  destruct (ConvertLinkTypeToModel_parts _ _ _ H)
    as (data & attrs & rel & Hd & Ha & Hr).
  exists data, attrs, rel.
  rewrite (ConvertLinkTypeToModel_outcome _ _ _ _ _ Hd Ha Hr) in H.
  apply outcome_success in H.
  destruct H as (_ & _ & _ & _ & _ & ->). simpl.
  repeat split; try assumption.
  destruct (app.attrDescription attrs); reflexivity.
Qed.

Lemma ConvertLinkTypeToModel_overwrites_only_present_witness :
  ConvertLinkTypeToModel
    (samples.update None
       (app.mkAttributes None None None None None (Some "tree"))
       samples.noRelationships)
    samples.bugBlocker
  = Return None (set_Topology "tree" samples.bugBlocker)
  /\ Name (set_Topology "tree" samples.bugBlocker) = Name samples.bugBlocker
  /\ Topology (set_Topology "tree" samples.bugBlocker) = "tree"
  /\ SpaceID (set_Topology "tree" samples.bugBlocker)
     = SpaceID samples.bugBlocker.
Proof.
  assert (H : ConvertLinkTypeToModel
                (samples.update None
                   (app.mkAttributes None None None None None (Some "tree"))
                   samples.noRelationships)
                samples.bugBlocker
              = Return None (set_Topology "tree" samples.bugBlocker))
    by reflexivity.
  split; [exact H|].
  destruct (ConvertLinkTypeToModel_overwrites_only_present _ _ _ H)
    as (data & attrs & rel & Hd & Ha & Hr & _ & _ & HN & _ & _ & _ & _ & HT
        & _ & _ & _ & HS).
  simpl in Hd. injection Hd as <-.
  simpl in Ha, Hr. injection Ha as <-. injection Hr as <-.
  split; [exact HN|]. split; [exact HT | exact HS].
Defined.

(** ** ConvertLinkTypeToModel: the three presence guards *)

(** C9: an update whose [data], [data.attributes] or [data.relationships]
    part is nil is answered with the BadParameter error naming that part, the
    parts being tested in that order, and the output record is returned as it
    was: nothing has been merged. *)
Theorem ConvertLinkTypeToModel_missing_part
  (in_ : app.WorkItemLinkTypeSingle) (out : WorkItemLinkType) :
  (app.Data in_ = None ->
   ConvertLinkTypeToModel in_ out = Return (Some (missingPart "data")) out)
  /\ (forall data,
        app.Data in_ = Some data -> app.dataAttributes data = None ->
        ConvertLinkTypeToModel in_ out
        = Return (Some (missingPart "data.attributes")) out)
  /\ (forall data,
        app.Data in_ = Some data -> app.dataAttributes data <> None ->
        app.dataRelationships data = None ->
        ConvertLinkTypeToModel in_ out
        = Return (Some (missingPart "data.relationships")) out).
Proof.
  unfold ConvertLinkTypeToModel. repeat split.
  - intros ->. reflexivity.
  - intros data -> ->. reflexivity.
  - intros data -> Ha ->.
    destruct (app.dataAttributes data); [reflexivity | contradiction].
Qed.

Lemma ConvertLinkTypeToModel_missing_part_witness :
  ConvertLinkTypeToModel (app.mkSingle None) samples.bugBlocker
  = Return (Some (missingPart "data")) samples.bugBlocker
  /\ ConvertLinkTypeToModel
       (app.mkSingle
          (Some (app.mkData "workitemlinktypes" (Some (fill x99)) None None)))
       samples.bugBlocker
     = Return (Some (missingPart "data.attributes")) samples.bugBlocker
  /\ ConvertLinkTypeToModel
       (app.mkSingle
          (Some (app.mkData "workitemlinktypes" (Some (fill x99))
                   (Some samples.noAttributes) None)))
       samples.bugBlocker
     = Return (Some (missingPart "data.relationships")) samples.bugBlocker.
Proof.
  split; [|split].
  - apply (proj1 (ConvertLinkTypeToModel_missing_part _ _)). reflexivity.
  - apply (proj1 (proj2 (ConvertLinkTypeToModel_missing_part _ _))
             (app.mkData "workitemlinktypes" (Some (fill x99)) None None));
      reflexivity.
  - apply (proj2 (proj2 (ConvertLinkTypeToModel_missing_part _ _))
             (app.mkData "workitemlinktypes" (Some (fill x99))
                (Some samples.noAttributes) None));
      [reflexivity | simpl; discriminate | reflexivity].
Defined.

(** ** ConvertLinkTypeToModel: what a failed run leaves behind *)

Lemma orKeep_old_or_new {A : Type} (p : option A) (old : A) :
  orKeep p old = old \/ p = Some (orKeep p old).
Proof. destruct p; [now right | now left]. Qed.

(** C5 (counterexample): an update that renames the link type and asks for
    an unknown topology is refused, and the record behind [out] already has
    the new name. *)
Lemma ConvertLinkTypeToModel_failed_run_mutates :
  ConvertLinkTypeToModel
    (samples.update None
       (app.mkAttributes (Some "Renamed") None None None None (Some "ring"))
       samples.noRelationships)
    samples.bugBlocker
  = Return
      (Some (WithStack
               (BadParameter
                  (mkBadParameterError "topolgy" (VString "ring")
                     (Some "network|directed_network|dependency|tree")))))
      (set_Name "Renamed" samples.bugBlocker)
  /\ set_Name "Renamed" samples.bugBlocker <> samples.bugBlocker.
Proof.
  split; [reflexivity|]. intros H. discriminate H.
Qed.

(** C5 (amended): when [ConvertLinkTypeToModel] returns an error, the
    record behind [out] holds exactly the writes the body made before the
    failing check and nothing else.  It is unchanged when [data],
    [data.attributes] or [data.relationships] is nil.  Otherwise its ID is
    the update's if the update carries one, and on an empty name nothing
    else has been written; on an empty forward name the name, description
    and version the update carries have been written; on an empty reverse
    name also the forward name; on a refused topology also the reverse name.
    The refused value itself is never stored, no attribute after the failing
    check is written, and the topology, the four relationship identifiers
    and the lifecycle metadata are always as before the call. *)
Theorem ConvertLinkTypeToModel_error_frame
  (in_ : app.WorkItemLinkTypeSingle) (out out' : WorkItemLinkType)
  (e : error) :
  ConvertLinkTypeToModel in_ out = Return (Some e) out' ->
  (out' = out
   /\ (app.Data in_ = None
       \/ exists data,
            app.Data in_ = Some data
            /\ (app.dataAttributes data = None
                \/ app.dataRelationships data = None)))
  \/ (exists data attrs rel,
        app.Data in_ = Some data /\ app.dataAttributes data = Some attrs
        /\ app.dataRelationships data = Some rel
        /\ Lifecycle out' = Lifecycle out
        /\ ID out' = orKeep (app.dataID data) (ID out)
        /\ Topology out' = Topology out
        /\ LinkCategoryID out' = LinkCategoryID out
        /\ SourceTypeID out' = SourceTypeID out
        /\ TargetTypeID out' = TargetTypeID out
        /\ SpaceID out' = SpaceID out
        /\ ((app.attrName attrs = Some EmptyString
             /\ e = emptyError "data.attributes.name"
             /\ Name out' = Name out
             /\ Description out' = Description out
             /\ Version out' = Version out
             /\ ForwardName out' = ForwardName out
             /\ ReverseName out' = ReverseName out)
            \/ (app.attrName attrs <> Some EmptyString
                /\ app.attrForwardName attrs = Some EmptyString
                /\ e = emptyError "data.attributes.forward_name"
                /\ Name out' = orKeep (app.attrName attrs) (Name out)
                /\ Description out' =
                   match app.attrDescription attrs with
                   | Some d => Some d
                   | None => Description out
                   end
                /\ Version out' = orKeep (app.attrVersion attrs) (Version out)
                /\ ForwardName out' = ForwardName out
                /\ ReverseName out' = ReverseName out)
            \/ (app.attrName attrs <> Some EmptyString
                /\ app.attrForwardName attrs <> Some EmptyString
                /\ app.attrReverseName attrs = Some EmptyString
                /\ e = emptyError "data.attributes.reverse_name"
                /\ Name out' = orKeep (app.attrName attrs) (Name out)
                /\ Description out' =
                   match app.attrDescription attrs with
                   | Some d => Some d
                   | None => Description out
                   end
                /\ Version out' = orKeep (app.attrVersion attrs) (Version out)
                /\ ForwardName out' =
                   orKeep (app.attrForwardName attrs) (ForwardName out)
                /\ ReverseName out' = ReverseName out)
            \/ (exists t,
                  app.attrName attrs <> Some EmptyString
                  /\ app.attrForwardName attrs <> Some EmptyString
                  /\ app.attrReverseName attrs <> Some EmptyString
                  /\ app.attrTopology attrs = Some t /\ ~ validTopology t
                  /\ e = WithStack
                           (BadParameter
                              (mkBadParameterError "topolgy" (VString t)
                                 (Some topologyExpected)))
                  /\ Name out' = orKeep (app.attrName attrs) (Name out)
                  /\ Description out' =
                     match app.attrDescription attrs with
                     | Some d => Some d
                     | None => Description out
                     end
                  /\ Version out' =
                     orKeep (app.attrVersion attrs) (Version out)
                  /\ ForwardName out' =
                     orKeep (app.attrForwardName attrs) (ForwardName out)
                  /\ ReverseName out' =
                     orKeep (app.attrReverseName attrs) (ReverseName out)))).
Proof.
  intros H.
  assert (Hyes : forall p, emptyGiven p = true -> p = Some EmptyString).
  { intros [n|]; simpl; [|discriminate].
    intros E. apply String.eqb_eq in E. now subst. }
  assert (Hno : forall p, emptyGiven p = false -> p <> Some EmptyString).
  { intros p E Hp. subst p. simpl in E. discriminate. }
  assert (Hdesc : forall (p old : option string),
             orKeep (option_map Some p) old
             = match p with Some d => Some d | None => old end).
  { intros [d|] old; reflexivity. }
  destruct (app.Data in_) as [data|] eqn:Hd.
  2:{ unfold ConvertLinkTypeToModel in H. rewrite Hd in H.
      injection H as _ <-. left. split; [reflexivity | now left]. }
  destruct (app.dataAttributes data) as [attrs|] eqn:Ha.
  2:{ unfold ConvertLinkTypeToModel in H. rewrite Hd, Ha in H.
      injection H as _ <-. left. split; [reflexivity|].
      right. exists data. split; [reflexivity | now left]. }
  destruct (app.dataRelationships data) as [rel|] eqn:Hr.
  2:{ unfold ConvertLinkTypeToModel in H. rewrite Hd, Ha, Hr in H.
      injection H as _ <-. left. split; [reflexivity|].
      right. exists data. split; [reflexivity | now right]. }
  rewrite (ConvertLinkTypeToModel_outcome _ _ _ _ _ Hd Ha Hr) in H.
  right. exists data, attrs, rel.
  split; [reflexivity|]. split; [exact Ha|]. split; [exact Hr|].
  unfold outcome in H. destruct out.
  destruct (emptyGiven (app.attrName attrs)) eqn:En.
  { injection H as <- <-. fields_of_record. simpl.
    do 7 (split; [reflexivity|]). left.
    split; [now apply Hyes|]. repeat split. }
  destruct (emptyGiven (app.attrForwardName attrs)) eqn:Ef.
  { injection H as <- <-. fields_of_record. simpl.
    do 7 (split; [reflexivity|]). right; left.
    split; [now apply Hno|]. split; [now apply Hyes|].
    split; [reflexivity|]. split; [reflexivity|].
    split; [apply Hdesc|]. repeat split. }
  destruct (emptyGiven (app.attrReverseName attrs)) eqn:Er.
  { injection H as <- <-. fields_of_record. simpl.
    do 7 (split; [reflexivity|]). right; right; left.
    split; [now apply Hno|]. split; [now apply Hno|].
    split; [now apply Hyes|].
    split; [reflexivity|]. split; [reflexivity|].
    split; [apply Hdesc|]. repeat split. }
  destruct (invalidGiven (app.attrTopology attrs)) as [err|] eqn:Et.
  { injection H as <- <-. fields_of_record. simpl.
    do 7 (split; [reflexivity|]). right; right; right.
    destruct (app.attrTopology attrs) as [t|]; [|discriminate].
    simpl in Et. exists t.
    assert (Hbad : ~ validTopology t).
    { intros Hv. apply CheckValidTopology_ok in Hv. congruence. }
    split; [now apply Hno|]. split; [now apply Hno|].
    split; [now apply Hno|]. split; [reflexivity|]. split; [exact Hbad|].
    split.
    { rewrite (CheckValidTopology_error t Hbad) in Et.
      injection Et as <-. reflexivity. }
    split; [reflexivity|]. split; [apply Hdesc|]. repeat split. }
  destruct (spaceIDMissing rel); discriminate.
Qed.

Lemma ConvertLinkTypeToModel_error_frame_witness :
  Name (set_Name "Renamed" samples.bugBlocker)
  = orKeep (Some "Renamed") (Name samples.bugBlocker)
  /\ Topology (set_Name "Renamed" samples.bugBlocker)
     = Topology samples.bugBlocker
  /\ SpaceID (set_Name "Renamed" samples.bugBlocker)
     = SpaceID samples.bugBlocker
  /\ ReverseName (set_Name "Renamed" samples.bugBlocker)
     = orKeep None (ReverseName samples.bugBlocker).
Proof.
  assert (H : ConvertLinkTypeToModel
                (samples.update None
                   (app.mkAttributes (Some "Renamed") None None None None
                      (Some "ring"))
                   samples.noRelationships)
                samples.bugBlocker
              = Return
                  (Some (WithStack
                           (BadParameter
                              (mkBadParameterError "topolgy" (VString "ring")
                                 (Some "network|directed_network|dependency|tree")))))
                  (set_Name "Renamed" samples.bugBlocker))
    by reflexivity.
  destruct (ConvertLinkTypeToModel_error_frame _ _ _ _ H)
    as [[_ [Hn|(d & Hd & Hp)]]
       |(data & attrs & rel & Hd & Ha & Hr & _ & _ & HT & _ & _ & _ & HS
         & Hcase)].
  - discriminate Hn.
  - simpl in Hd. injection Hd as <-. destruct Hp as [Hp|Hp]; discriminate Hp.
  - simpl in Hd. injection Hd as <-.
    simpl in Ha, Hr. injection Ha as <-. injection Hr as <-.
    destruct Hcase
      as [(Hn & _)|[(_ & Hf & _)|[(_ & _ & Hrv & _)
         |(t & _ & _ & _ & _ & _ & _ & HN & _ & _ & _ & HR)]]].
    + discriminate Hn.
    + discriminate Hf.
    + discriminate Hrv.
    + split; [exact HN|]. split; [exact HT|]. split; [exact HS | exact HR].
Defined.

(** ** ConvertLinkTypeToModel and creation validation *)

(** C4 (counterexample): [ConvertLinkTypeToModel] succeeds on an update that
    sets the source type of a valid link type to the nil UUID, and on an
    empty update of a link type without a name; neither merged record passes
    [CheckValidForCreation]. *)
Lemma ConvertLinkTypeToModel_skips_creation_validation :
  ConvertLinkTypeToModel
    (samples.update None samples.noAttributes
       (app.mkRelationships None
          (Some (app.mkWorkItemType
                   (Some (app.mkWorkItemTypeData "workitemtypes" Nil))))
          None None))
    samples.bugBlocker
  = Return None (set_SourceTypeID Nil samples.bugBlocker)
  /\ reported (CheckValidForCreation
                 (set_SourceTypeID Nil samples.bugBlocker))
     = Some "source_type_name"
  /\ ConvertLinkTypeToModel
       (samples.update None samples.noAttributes samples.noRelationships)
       (set_Name EmptyString samples.bugBlocker)
     = Return None (set_Name EmptyString samples.bugBlocker)
  /\ reported (CheckValidForCreation
                 (set_Name EmptyString samples.bugBlocker))
     = Some "name".
Proof. repeat split. Qed.

Lemma emptyGiven_false (p : option string) (old : string) :
  emptyGiven p = false -> old <> EmptyString -> orKeep p old <> EmptyString.
Proof.
  destruct p as [name|]; simpl; [|tauto].
  intros H _. now apply String.eqb_neq.
Qed.

Lemma invalidGiven_None (p : option string) (old : string) :
  invalidGiven p = None -> validTopology old -> validTopology (orKeep p old).
Proof.
  destruct p as [t|]; simpl; [|tauto].
  intros H _. now apply CheckValidTopology_ok.
Qed.

Lemma orKeep_not_Nil (p : option UUID) (old : UUID) :
  p <> Some Nil -> old <> Nil -> orKeep p old <> Nil.
Proof.
  destruct p as [u|]; simpl; [|tauto]. intros H _ E. apply H. now rewrite E.
Qed.

(** C4 (amended): [ConvertLinkTypeToModel] checks the attributes the update
    carries (name, forward name and reverse name non-empty, topology one of
    the four literals) and nothing else; so when the existing record passes
    [CheckValidForCreation] and none of the relationship identifiers the
    update carries is the nil UUID, the record merged by a successful
    conversion passes [CheckValidForCreation] too. *)
Theorem ConvertLinkTypeToModel_keeps_valid
  (in_ : app.WorkItemLinkTypeSingle) (out out' : WorkItemLinkType)
  (data : app.WorkItemLinkTypeData) (attrs : app.WorkItemLinkTypeAttributes)
  (rel : app.WorkItemLinkTypeRelationships) :
  app.Data in_ = Some data ->
  app.dataAttributes data = Some attrs ->
  app.dataRelationships data = Some rel ->
  givenSourceType rel <> Some Nil ->
  givenTargetType rel <> Some Nil ->
  givenLinkCategory rel <> Some Nil ->
  givenSpace rel <> Some Nil ->
  CheckValidForCreation out = None ->
  ConvertLinkTypeToModel in_ out = Return None out' ->
  CheckValidForCreation out' = None.
Proof.
  intros Hd Ha Hr Hs Ht Hc Hp Hv H.
  rewrite (ConvertLinkTypeToModel_outcome _ _ _ _ _ Hd Ha Hr) in H.
  apply outcome_success in H.
  destruct H as (Hn & Hf & Hrv & Htop & _ & ->).
  apply CheckValidForCreation_ok in Hv. apply CheckValidForCreation_ok.
  unfold validForCreation in *. simpl.
  destruct Hv as (V1 & V2 & V3 & V4 & V5 & V6 & V7 & V8).
  repeat split;
    auto using emptyGiven_false, invalidGiven_None, orKeep_not_Nil.
Qed.

Lemma ConvertLinkTypeToModel_keeps_valid_witness :
  CheckValidForCreation (set_Topology "tree" samples.bugBlocker) = None.
Proof.
  apply (ConvertLinkTypeToModel_keeps_valid
           (samples.update None
              (app.mkAttributes None None None None None (Some "tree"))
              samples.noRelationships)
           samples.bugBlocker (set_Topology "tree" samples.bugBlocker)
           (app.mkData "workitemlinktypes" None
              (Some (app.mkAttributes None None None None None (Some "tree")))
              (Some samples.noRelationships))
           (app.mkAttributes None None None None None (Some "tree"))
           samples.noRelationships);
    try reflexivity; simpl; discriminate.
Defined.

(** ** ConvertLinkTypeToModel and the non-empty names *)

(** C8 (counterexample): an update whose name is present and empty but
    whose relationships part is nil is refused with the error naming
    [data.relationships], not the name. *)
Lemma ConvertLinkTypeToModel_empty_name_without_relationships :
  ConvertLinkTypeToModel
    (app.mkSingle
       (Some (app.mkData "workitemlinktypes" None
                (Some (app.mkAttributes (Some EmptyString) None None None
                         None None))
                None)))
    samples.bugBlocker
  = Return (Some (missingPart "data.relationships")) samples.bugBlocker
  /\ parameter (Cause (missingPart "data.relationships"))
     <> "data.attributes.name".
Proof. split; [reflexivity | discriminate]. Qed.

Lemma emptyGiven_true (p : option string) :
  emptyGiven p = true <-> p = Some EmptyString.
Proof.
  destruct p as [name|]; simpl; [|split; discriminate].
  rewrite String.eqb_eq. split; congruence.
Qed.

(** C8 (amended): for an update whose three parts are present and in which
    name, forward name or reverse name is present but empty,
    [ConvertLinkTypeToModel] returns the BadParameter error naming the first
    such attribute in the order name, forward name, reverse name; and a
    record whose name, forward name and reverse name are non-empty still has
    them non-empty after any successful [ConvertLinkTypeToModel]. *)
Theorem ConvertLinkTypeToModel_names_stay_non_empty
  (in_ : app.WorkItemLinkTypeSingle) (out : WorkItemLinkType) :
  (forall data attrs rel,
     app.Data in_ = Some data ->
     app.dataAttributes data = Some attrs ->
     app.dataRelationships data = Some rel ->
     app.attrName attrs = Some EmptyString
     \/ app.attrForwardName attrs = Some EmptyString
     \/ app.attrReverseName attrs = Some EmptyString ->
     exists label out',
       ConvertLinkTypeToModel in_ out
       = Return (Some (BadParameter
                         (NewBadParameterError label (VString EmptyString))))
           out'
       /\ ((label = "data.attributes.name"
            /\ app.attrName attrs = Some EmptyString)
           \/ (label = "data.attributes.forward_name"
               /\ app.attrName attrs <> Some EmptyString
               /\ app.attrForwardName attrs = Some EmptyString)
           \/ (label = "data.attributes.reverse_name"
               /\ app.attrName attrs <> Some EmptyString
               /\ app.attrForwardName attrs <> Some EmptyString
               /\ app.attrReverseName attrs = Some EmptyString)))
  /\ (forall out',
        ConvertLinkTypeToModel in_ out = Return None out' ->
        Name out <> EmptyString -> ForwardName out <> EmptyString ->
        ReverseName out <> EmptyString ->
        Name out' <> EmptyString /\ ForwardName out' <> EmptyString
        /\ ReverseName out' <> EmptyString).
Proof.
  split.
  - intros data attrs rel Hd Ha Hr Hempty.
    rewrite (ConvertLinkTypeToModel_outcome _ _ _ _ _ Hd Ha Hr).
    unfold outcome, emptyError.
    assert (Hno : forall p, emptyGiven p = false -> p <> Some EmptyString).
    { intros p E H. apply emptyGiven_true in H. congruence. }
    destruct (emptyGiven (app.attrName attrs)) eqn:En.
    { apply emptyGiven_true in En.
      eexists _, _. split; [reflexivity|]. now left. }
    destruct (emptyGiven (app.attrForwardName attrs)) eqn:Ef.
    { apply emptyGiven_true in Ef.
      eexists _, _. split; [reflexivity|]. right; left. auto. }
    destruct (emptyGiven (app.attrReverseName attrs)) eqn:Er.
    { apply emptyGiven_true in Er.
      eexists _, _. split; [reflexivity|]. right; right. auto. }
    destruct Hempty as [H|[H|H]]; apply emptyGiven_true in H; congruence.
  - intros out' H Hn Hf Hr.
    destruct (ConvertLinkTypeToModel_parts _ _ _ H)
      as (data & attrs & rel & Hd & Ha & Hrel).
    rewrite (ConvertLinkTypeToModel_outcome _ _ _ _ _ Hd Ha Hrel) in H.
    apply outcome_success in H.
    destruct H as (En & Ef & Er & _ & _ & ->). simpl.
    repeat split; now apply emptyGiven_false.
Qed.

Lemma ConvertLinkTypeToModel_names_stay_non_empty_witness :
  (exists label out',
     ConvertLinkTypeToModel
       (samples.update None
          (app.mkAttributes (Some "Renamed") None None (Some EmptyString)
             (Some EmptyString) None)
          samples.noRelationships)
       samples.bugBlocker
     = Return (Some (BadParameter
                       (NewBadParameterError label (VString EmptyString))))
         out'
     /\ label = "data.attributes.forward_name")
  /\ Name (set_Name "Renamed" samples.bugBlocker) <> EmptyString.
Proof.
  split.
  - destruct (proj1 (ConvertLinkTypeToModel_names_stay_non_empty
                       (samples.update None
                          (app.mkAttributes (Some "Renamed") None None
                             (Some EmptyString) (Some EmptyString) None)
                          samples.noRelationships)
                       samples.bugBlocker)
                _ _ _ eq_refl eq_refl eq_refl (or_intror (or_introl eq_refl)))
      as (label & out' & H & [[_ Hn]|[[Hl _]|[_ [_ [Hf _]]]]]).
    + discriminate Hn.
    + now exists label, out'.
    + exfalso. now apply Hf.
  - apply (proj2 (ConvertLinkTypeToModel_names_stay_non_empty
                    (samples.update None
                       (app.mkAttributes (Some "Renamed") None None None None
                          None)
                       samples.noRelationships)
                    samples.bugBlocker)
             (set_Name "Renamed" samples.bugBlocker));
      try reflexivity; simpl; discriminate.
Defined.

(** ** From the model to the REST representation and back *)

Lemma record_ext (a b : WorkItemLinkType) :
  Lifecycle a = Lifecycle b -> ID a = ID b -> Name a = Name b ->
  Description a = Description b -> Version a = Version b ->
  Topology a = Topology b -> SourceTypeID a = SourceTypeID b ->
  TargetTypeID a = TargetTypeID b -> ForwardName a = ForwardName b ->
  ReverseName a = ReverseName b -> LinkCategoryID a = LinkCategoryID b ->
  SpaceID a = SpaceID b -> a = b.
Proof.
  destruct a, b; simpl; intros; subst; reflexivity.
Qed.

(** C10 (counterexample): a valid link type without a description,
    converted to the REST representation and merged onto a record with the
    same lifecycle metadata that has a description, keeps that description:
    the result does not equal the link type. *)
Lemma round_trip_keeps_stale_description :
  CheckValidForCreation samples.bugBlocker = None
  /\ Lifecycle (set_Description (Some "stale") samples.bugBlocker)
     = Lifecycle samples.bugBlocker
  /\ ConvertLinkTypeToModel
       (ConvertLinkTypeFromModel unit (fun _ href => href)
          (fun id => "/api/spaces/" ++ id) (fun _ => "space")
          "workitemlinktypes" "workitemlinkcategories" "workitemtypes"
          tt samples.bugBlocker)
       (set_Description (Some "stale") samples.bugBlocker)
     = Return None (set_Description (Some "stale") samples.bugBlocker)
  /\ Equal (set_Description (Some "stale") samples.bugBlocker)
       (EqualerValue samples.bugBlocker) = false.
Proof. repeat split. Qed.

Section RoundTrip.

Variable RequestData : Type.
Variable AbsoluteURL : RequestData -> string -> string.
Variable SpaceHref : string -> string.
Variable UUIDString : UUID -> string.
Variables EndpointWorkItemLinkTypes EndpointWorkItemLinkCategories
  EndpointWorkItemTypes : string.

(** C10 (amended): for every link type [t] that passes
    [CheckValidForCreation], converting [t] with [ConvertLinkTypeFromModel]
    and merging the result with [ConvertLinkTypeToModel] onto a record whose
    lifecycle metadata equals [t]'s, and whose description is unset whenever
    [t]'s is, returns no error and leaves a record that [Equal] compares true
    to [t]. *)
Theorem round_trip (request : RequestData) (t out : WorkItemLinkType) :
  CheckValidForCreation t = None ->
  Lifecycle out = Lifecycle t ->
  (Description t = None -> Description out = None) ->
  exists out',
    ConvertLinkTypeToModel
      (ConvertLinkTypeFromModel RequestData AbsoluteURL SpaceHref UUIDString
         EndpointWorkItemLinkTypes EndpointWorkItemLinkCategories
         EndpointWorkItemTypes request t)
      out
    = Return None out'
    /\ Equal out' (EqualerValue t) = true.
Proof.
  intros Hv Hl Hdesc.
  apply CheckValidForCreation_ok in Hv.
  destruct Hv as (Vn & _ & _ & Vf & Vr & Vt & _ & _).
  apply String.eqb_neq in Vn, Vf, Vr. apply CheckValidTopology_ok in Vt.
  erewrite ConvertLinkTypeToModel_outcome by reflexivity.
  rewrite outcome_merged by (try reflexivity; assumption).
  eexists. split; [reflexivity|].
  apply Equal_eq.
  destruct t as [l i n d v tp s g f r c sp]. simpl in *. rewrite Hl.
  destruct d as [a|]; simpl; [reflexivity|].
  rewrite (Hdesc eq_refl). reflexivity.
Qed.

End RoundTrip.

Lemma round_trip_witness :
  exists out',
    ConvertLinkTypeToModel
      (ConvertLinkTypeFromModel unit (fun _ href => href)
         (fun id => "/api/spaces/" ++ id) (fun _ => "space")
         "workitemlinktypes" "workitemlinkcategories" "workitemtypes"
         tt samples.bugBlocker)
      (mkWorkItemLinkType samples.created Nil EmptyString None 0 EmptyString
         Nil Nil EmptyString EmptyString Nil Nil)
    = Return None out'
    /\ Equal out' (EqualerValue samples.bugBlocker) = true.
Proof.
  apply (round_trip unit (fun _ href => href)
           (fun id => "/api/spaces/" ++ id) (fun _ => "space")
           "workitemlinktypes" "workitemlinkcategories" "workitemtypes"
           tt samples.bugBlocker
           (mkWorkItemLinkType samples.created Nil EmptyString None 0
              EmptyString Nil Nil EmptyString EmptyString Nil Nil));
    reflexivity.
Defined.

(** * Further properties of the code *)

(** ** The two validators *)

(** X1: [CheckValidTopology] returns nil exactly on the four literals; on
    any other string it returns the BadParameter error that carries the
    rejected string itself as the actual value and the four literals, joined
    by bars, as the expected value. *)
Theorem CheckValidTopology_accepts_exactly (t : string) :
  (CheckValidTopology t = None <-> validTopology t)
  /\ (~ validTopology t ->
      exists e,
        CheckValidTopology t = Some (BadParameter e)
        /\ actual e = VString t
        /\ expectedValue e = Some topologyExpected).
Proof.
  split; [apply CheckValidTopology_ok|].
  intros H. rewrite (CheckValidTopology_error t H).
  eexists. repeat split.
Qed.

Lemma CheckValidTopology_accepts_exactly_witness :
  CheckValidTopology "dependency" = None
  /\ exists e,
       CheckValidTopology "Network" = Some (BadParameter e)
       /\ actual e = VString "Network"
       /\ expectedValue e = Some topologyExpected.
Proof.
  split.
  - apply (proj1 (CheckValidTopology_accepts_exactly "dependency")).
    right; right; left. reflexivity.
  - apply (proj2 (CheckValidTopology_accepts_exactly "Network")).
    intros [H|[H|[H|H]]]; discriminate H.
Defined.

(** X2: [CheckValidForCreation] returns nil exactly when the name, the
    forward name and the reverse name are non-empty, the source type, target
    type, link category and space identifiers are not the nil UUID, and the
    topology is one of the four literals. *)
Theorem CheckValidForCreation_nil_iff (t : WorkItemLinkType) :
  CheckValidForCreation t = None <->
  Name t <> EmptyString /\ SourceTypeID t <> Nil /\ TargetTypeID t <> Nil
  /\ ForwardName t <> EmptyString /\ ReverseName t <> EmptyString
  /\ (Topology t = "network" \/ Topology t = "directed_network"
      \/ Topology t = "dependency" \/ Topology t = "tree")
  /\ LinkCategoryID t <> Nil /\ SpaceID t <> Nil.
Proof.
  split; intros H.
  - apply CheckValidForCreation_ok in H. exact H.
  - apply CheckValidForCreation_ok. exact H.
Qed.

Lemma firstFailing_In (checks : list (string * bool)) (label : string) :
  firstFailing checks = Some label -> List.In (label, true) checks.
Proof.
  induction checks as [|[l b] rest IH]; simpl; [discriminate|].
  destruct b.
  - intros H. injection H as ->. now left.
  - intros H. right. now apply IH.
Qed.

(** X3: the eight checks of [CheckValidForCreation] run in source order and
    the parameter of the error is the label of the first check that fails
    (labels as the code writes them); in particular a record with several
    defects is answered with one error only. *)
Theorem CheckValidForCreation_reports_first_failing (t : WorkItemLinkType) :
  reported (CheckValidForCreation t) = firstFailing (creationChecks t)
  /\ (forall e, CheckValidForCreation t = Some e ->
      exists label, List.In (label, true) (creationChecks t)
                    /\ parameter (Cause e) = label).
Proof.
  pose proof (CheckValidForCreation_first_failing t) as H.
  split; [exact H|]. intros e He.
  exists (parameter (Cause e)). split; [|reflexivity].
  apply firstFailing_In. rewrite <- H, He. reflexivity.
Qed.

Lemma CheckValidForCreation_reports_first_failing_witness :
  exists label,
    List.In (label, true)
      (creationChecks
         (set_SpaceID Nil (set_ForwardName EmptyString samples.bugBlocker)))
    /\ parameter
         (Cause (BadParameter
                   (NewBadParameterError "forward_name"
                      (VString EmptyString)))) = label.
Proof.
  apply (proj2 (CheckValidForCreation_reports_first_failing
                  (set_SpaceID Nil
                     (set_ForwardName EmptyString samples.bugBlocker)))).
  reflexivity.
Defined.

(** X4: [CheckValidForCreation] never looks at the lifecycle metadata, the
    ID, the description or the version: two records that agree on the other
    eight fields get the same answer, so a record with the nil UUID as its
    ID can pass. *)
Theorem CheckValidForCreation_ignores (t u : WorkItemLinkType) :
  Name t = Name u -> Topology t = Topology u ->
  SourceTypeID t = SourceTypeID u -> TargetTypeID t = TargetTypeID u ->
  ForwardName t = ForwardName u -> ReverseName t = ReverseName u ->
  LinkCategoryID t = LinkCategoryID u -> SpaceID t = SpaceID u ->
  CheckValidForCreation t = CheckValidForCreation u.
Proof.
  unfold CheckValidForCreation.
  intros -> -> -> -> -> -> -> ->. reflexivity.
Qed.

Lemma CheckValidForCreation_ignores_witness :
  CheckValidForCreation
    (mkWorkItemLinkType (gormsupport.mkLifecycle 5 6 (Some 7%Z)) Nil
       "Bug blocker" (Some "text") 41 TopologyNetwork (fill x22) (fill x33)
       "blocks" "blocked by" (fill x44) (fill x55))
  = CheckValidForCreation samples.bugBlocker.
Proof.
  apply CheckValidForCreation_ignores; reflexivity.
Defined.

(** ** Equality *)

(** X5: [Equal] on two link types answers true exactly when the two records
    are the same in all twelve fields, it is transitive, and an argument that
    is a pointer to a link type never compares equal, not even to the record
    it points to. *)
Theorem Equal_decides_identity :
  (forall t u, Equal t (EqualerValue u) = true <-> t = u)
  /\ (forall t u w,
        Equal t (EqualerValue u) = true -> Equal u (EqualerValue w) = true ->
        Equal t (EqualerValue w) = true)
  /\ (forall t p, Equal t (EqualerPointer p) = false).
Proof.
  split; [exact Equal_eq|]. split; [|reflexivity].
  intros t u w H1 H2. apply Equal_eq in H1, H2. apply Equal_eq. congruence.
Qed.

Lemma Equal_decides_identity_witness :
  Equal samples.bugBlocker
    (EqualerValue (set_Version 0 (set_Name "Bug blocker" samples.bugBlocker)))
  = true.
Proof.
  apply (proj1 (proj2 Equal_decides_identity) samples.bugBlocker
           (set_Name "Bug blocker" samples.bugBlocker));
    vm_compute; reflexivity.
Defined.

(** ** ConvertLinkTypeToModel: when it succeeds, fails and panics *)

Lemma emptyGiven_false_iff (p : option string) :
  emptyGiven p = false <-> p <> Some EmptyString.
Proof.
  rewrite <- emptyGiven_true. destruct (emptyGiven p); split; congruence.
Qed.

Lemma invalidGiven_None_iff (p : option string) :
  invalidGiven p = None <-> (forall t, p = Some t -> validTopology t).
Proof.
  destruct p as [t|]; simpl.
  - rewrite CheckValidTopology_ok. split.
    + intros H t' E. injection E as <-. exact H.
    + intros H. now apply H.
  - split; [discriminate | reflexivity].
Qed.

Lemma acceptable_iff (attrs : app.WorkItemLinkTypeAttributes) :
  acceptable attrs <->
  emptyGiven (app.attrName attrs) = false
  /\ emptyGiven (app.attrForwardName attrs) = false
  /\ emptyGiven (app.attrReverseName attrs) = false
  /\ invalidGiven (app.attrTopology attrs) = None.
Proof.
  unfold acceptable.
  now rewrite !emptyGiven_false_iff, invalidGiven_None_iff.
Qed.

Lemma spaceIDMissing_true (rel : app.WorkItemLinkTypeRelationships) :
  spaceIDMissing rel = true <-> spaceLacksID rel.
Proof.
  unfold spaceIDMissing, spaceLacksID.
  destruct (app.relSpace rel) as [sp|].
  - destruct (app.spData sp) as [d|] eqn:Ed.
    + destruct (app.spID d) as [u|] eqn:Eu.
      * split; [discriminate|].
        intros (sp' & d' & Hs & Hd & Hi). injection Hs as <-.
        rewrite Ed in Hd. injection Hd as <-. congruence.
      * split; [|reflexivity]. intros _. now exists sp, d.
    + split; [discriminate|].
      intros (sp' & d' & Hs & Hd & _). injection Hs as <-. congruence.
  - split; [discriminate|]. intros (sp' & d' & Hs & _). discriminate.
Qed.

Lemma spaceIDMissing_false (rel : app.WorkItemLinkTypeRelationships) :
  spaceIDMissing rel = false <-> ~ spaceLacksID rel.
Proof.
  rewrite <- spaceIDMissing_true.
  destruct (spaceIDMissing rel); split; congruence.
Qed.

Lemma CheckValidTopology_Some (t : string) (e : error) :
  CheckValidTopology t = Some e ->
  e = BadParameter
        (mkBadParameterError "topolgy" (VString t) (Some topologyExpected)).
Proof.
  unfold CheckValidTopology. destruct (_ && _); [|discriminate].
  intros H. injection H as <-. reflexivity.
Qed.

(** X6: whether [ConvertLinkTypeToModel] returns nil depends on the update
    alone, never on the record it is merged into: it returns nil exactly when
    the three parts are present, no name, forward name or reverse name that is
    present is empty, a topology that is present is one of the four literals,
    and the space relation, if it has a data object, has an ID in it. *)
Theorem ConvertLinkTypeToModel_succeeds_iff
  (in_ : app.WorkItemLinkTypeSingle) (out : WorkItemLinkType) :
  (exists out', ConvertLinkTypeToModel in_ out = Return None out') <->
  (exists data attrs rel,
     app.Data in_ = Some data /\ app.dataAttributes data = Some attrs
     /\ app.dataRelationships data = Some rel
     /\ acceptable attrs /\ ~ spaceLacksID rel).
Proof.
  split.
  - intros [out' H].
    destruct (ConvertLinkTypeToModel_parts _ _ _ H)
      as (data & attrs & rel & Hd & Ha & Hr).
    exists data, attrs, rel.
    rewrite (ConvertLinkTypeToModel_outcome _ _ _ _ _ Hd Ha Hr) in H.
    apply outcome_success in H.
    destruct H as (En & Ef & Er & Et & Es & _).
    split; [exact Hd|]. split; [exact Ha|]. split; [exact Hr|]. split.
    + apply acceptable_iff. auto.
    + now apply spaceIDMissing_false.
  - intros (data & attrs & rel & Hd & Ha & Hr & Hacc & Hsp).
    apply acceptable_iff in Hacc. destruct Hacc as (En & Ef & Er & Et).
    apply spaceIDMissing_false in Hsp.
    rewrite (ConvertLinkTypeToModel_outcome _ _ _ _ _ Hd Ha Hr).
    rewrite (outcome_merged _ _ _ _ En Ef Er Et Hsp). eexists. reflexivity.
Qed.

(** X7: [ConvertLinkTypeToModel] dereferences a nil pointer exactly when the
    update passes every test of the body and its space relation has a data
    object without an ID; the space identifier of the record is then as it
    was. *)
Theorem ConvertLinkTypeToModel_panics_iff
  (in_ : app.WorkItemLinkTypeSingle) (out : WorkItemLinkType) :
  ((exists out', ConvertLinkTypeToModel in_ out = Panic out') <->
   (exists data attrs rel,
      app.Data in_ = Some data /\ app.dataAttributes data = Some attrs
      /\ app.dataRelationships data = Some rel
      /\ acceptable attrs /\ spaceLacksID rel))
  /\ (forall out', ConvertLinkTypeToModel in_ out = Panic out' ->
      SpaceID out' = SpaceID out).
Proof.
  assert (Hinv : forall out',
             ConvertLinkTypeToModel in_ out = Panic out' ->
             exists data attrs rel,
               app.Data in_ = Some data /\ app.dataAttributes data = Some attrs
               /\ app.dataRelationships data = Some rel
               /\ emptyGiven (app.attrName attrs) = false
               /\ emptyGiven (app.attrForwardName attrs) = false
               /\ emptyGiven (app.attrReverseName attrs) = false
               /\ invalidGiven (app.attrTopology attrs) = None
               /\ spaceIDMissing rel = true
               /\ outcome data attrs rel out = Panic out').
  { intros out' H.
    destruct (app.Data in_) as [data|] eqn:Hd;
      [|unfold ConvertLinkTypeToModel in H; rewrite Hd in H; discriminate].
    destruct (app.dataAttributes data) as [attrs|] eqn:Ha;
      [|unfold ConvertLinkTypeToModel in H; rewrite Hd, Ha in H;
        discriminate].
    destruct (app.dataRelationships data) as [rel|] eqn:Hr;
      [|unfold ConvertLinkTypeToModel in H; rewrite Hd, Ha, Hr in H;
        discriminate].
    rewrite (ConvertLinkTypeToModel_outcome _ _ _ _ _ Hd Ha Hr) in H.
    exists data, attrs, rel. pose proof H as H'. unfold outcome in H'.
    destruct (emptyGiven (app.attrName attrs)); [discriminate|].
    destruct (emptyGiven (app.attrForwardName attrs)); [discriminate|].
    destruct (emptyGiven (app.attrReverseName attrs)); [discriminate|].
    destruct (invalidGiven (app.attrTopology attrs)); [discriminate|].
    destruct (spaceIDMissing rel); [|discriminate].
    repeat split; assumption. }
  split; [split|].
  - intros [out' H]. destruct (Hinv _ H)
      as (data & attrs & rel & Hd & Ha & Hr & En & Ef & Er & Et & Es & _).
    exists data, attrs, rel.
    split; [exact Hd|]. split; [exact Ha|]. split; [exact Hr|]. split.
    + apply acceptable_iff. auto.
    + now apply spaceIDMissing_true.
  - intros (data & attrs & rel & Hd & Ha & Hr & Hacc & Hsp).
    apply acceptable_iff in Hacc. destruct Hacc as (En & Ef & Er & Et).
    apply spaceIDMissing_true in Hsp.
    rewrite (ConvertLinkTypeToModel_outcome _ _ _ _ _ Hd Ha Hr).
    unfold outcome. rewrite En, Ef, Er, Et, Hsp. eexists. reflexivity.
  - intros out' H. destruct (Hinv _ H)
      as (data & attrs & rel & _ & _ & _ & En & Ef & Er & Et & Es & Ho).
    unfold outcome in Ho. rewrite En, Ef, Er, Et, Es in Ho.
    injection Ho as <-. destruct out. fields_of_record. reflexivity.
Qed.

Lemma ConvertLinkTypeToModel_panics_iff_witness :
  SpaceID (set_Name "Renamed" samples.bugBlocker)
  = SpaceID samples.bugBlocker.
Proof.
  apply (proj2 (ConvertLinkTypeToModel_panics_iff
                  (samples.update None
                     (app.mkAttributes (Some "Renamed") None None None None
                        None)
                     (app.mkRelationships None None None
                        (Some (app.mkSpaces
                                 (Some (app.mkSpacesData (Some "spaces")
                                          None))
                                 None))))
                  samples.bugBlocker)).
  reflexivity.
Defined.

(** X8: an error returned by [ConvertLinkTypeToModel] is a BadParameter
    error, possibly under a stack, whose parameter is one of [data],
    [data.attributes], [data.relationships], [data.attributes.name],
    [data.attributes.forward_name], [data.attributes.reverse_name] and
    [topolgy]; the version, the description and the identifiers are never
    the reason of an error. *)
Theorem ConvertLinkTypeToModel_error_labels
  (in_ : app.WorkItemLinkTypeSingle) (out out' : WorkItemLinkType)
  (e : error) :
  ConvertLinkTypeToModel in_ out = Return (Some e) out' ->
  List.In (parameter (Cause e)) conversionLabels.
Proof.
  intros H. unfold conversionLabels.
  destruct (app.Data in_) as [data|] eqn:Hd.
  2:{ unfold ConvertLinkTypeToModel in H. rewrite Hd in H.
      injection H as <- _. simpl. tauto. }
  destruct (app.dataAttributes data) as [attrs|] eqn:Ha.
  2:{ unfold ConvertLinkTypeToModel in H. rewrite Hd, Ha in H.
      injection H as <- _. simpl. tauto. }
  destruct (app.dataRelationships data) as [rel|] eqn:Hr.
  2:{ unfold ConvertLinkTypeToModel in H. rewrite Hd, Ha, Hr in H.
      injection H as <- _. simpl. tauto. }
  rewrite (ConvertLinkTypeToModel_outcome _ _ _ _ _ Hd Ha Hr) in H.
  unfold outcome in H.
  destruct (emptyGiven (app.attrName attrs));
    [injection H as <- _; simpl; tauto|].
  destruct (emptyGiven (app.attrForwardName attrs));
    [injection H as <- _; simpl; tauto|].
  destruct (emptyGiven (app.attrReverseName attrs));
    [injection H as <- _; simpl; tauto|].
  destruct (invalidGiven (app.attrTopology attrs)) as [err|] eqn:Et.
  - injection H as <- _.
    destruct (app.attrTopology attrs) as [t|]; [|discriminate].
    simpl in Et. apply CheckValidTopology_Some in Et. subst err.
    simpl. tauto.
  - destruct (spaceIDMissing rel); discriminate.
Qed.

Lemma ConvertLinkTypeToModel_error_labels_witness :
  List.In "data.attributes.reverse_name" conversionLabels.
Proof.
  apply (ConvertLinkTypeToModel_error_labels
           (samples.update None
              (app.mkAttributes None None None None (Some EmptyString) None)
              samples.noRelationships)
           samples.bugBlocker samples.bugBlocker
           (emptyError "data.attributes.reverse_name")).
  reflexivity.
Defined.

(** ** ConvertLinkTypeToModel: what the merge keeps *)

Lemma orKeep_idempotent {A : Type} (p : option A) (old : A) :
  orKeep p (orKeep p old) = orKeep p old.
Proof. destruct p; reflexivity. Qed.

(** X9: merging is idempotent: when [ConvertLinkTypeToModel] has merged an
    update into a record without error, merging the same update into the
    result returns nil again and changes nothing. *)
Theorem ConvertLinkTypeToModel_idempotent
  (in_ : app.WorkItemLinkTypeSingle) (out out' : WorkItemLinkType) :
  ConvertLinkTypeToModel in_ out = Return None out' ->
  ConvertLinkTypeToModel in_ out' = Return None out'.
Proof.
  intros H.
  destruct (ConvertLinkTypeToModel_parts _ _ _ H)
    as (data & attrs & rel & Hd & Ha & Hr).
  rewrite (ConvertLinkTypeToModel_outcome _ _ _ _ _ Hd Ha Hr) in H.
  rewrite (ConvertLinkTypeToModel_outcome _ _ _ _ _ Hd Ha Hr).
  apply outcome_success in H.
  destruct H as (En & Ef & Er & Et & Es & ->).
  rewrite (outcome_merged _ _ _ _ En Ef Er Et Es). simpl.
  now rewrite !orKeep_idempotent.
Qed.

Lemma ConvertLinkTypeToModel_idempotent_witness :
  ConvertLinkTypeToModel
    (samples.update (Some (fill x99))
       (app.mkAttributes (Some "Renamed") (Some "text") None None None
          (Some "tree"))
       samples.noRelationships)
    (set_Topology "tree"
       (set_Description (Some "text")
          (set_Name "Renamed" (set_ID (fill x99) samples.bugBlocker))))
  = Return None
      (set_Topology "tree"
         (set_Description (Some "text")
            (set_Name "Renamed" (set_ID (fill x99) samples.bugBlocker)))).
Proof.
  apply (ConvertLinkTypeToModel_idempotent _ samples.bugBlocker).
  reflexivity.
Defined.

(** X10: however [ConvertLinkTypeToModel] is left, with nil, with an error
    or by the nil dereference, the lifecycle metadata of the record behind
    [out] is as it was before the call. *)
Theorem ConvertLinkTypeToModel_keeps_lifecycle
  (in_ : app.WorkItemLinkTypeSingle) (out : WorkItemLinkType) :
  Lifecycle (final (ConvertLinkTypeToModel in_ out)) = Lifecycle out.
Proof.
  destruct (app.Data in_) as [data|] eqn:Hd;
    [|unfold ConvertLinkTypeToModel; rewrite Hd; reflexivity].
  destruct (app.dataAttributes data) as [attrs|] eqn:Ha;
    [|unfold ConvertLinkTypeToModel; rewrite Hd, Ha; reflexivity].
  destruct (app.dataRelationships data) as [rel|] eqn:Hr;
    [|unfold ConvertLinkTypeToModel; rewrite Hd, Ha, Hr; reflexivity].
  rewrite (ConvertLinkTypeToModel_outcome _ _ _ _ _ Hd Ha Hr).
  unfold outcome. destruct out.
  destruct (emptyGiven (app.attrName attrs));
    [fields_of_record; reflexivity|].
  destruct (emptyGiven (app.attrForwardName attrs));
    [fields_of_record; reflexivity|].
  destruct (emptyGiven (app.attrReverseName attrs));
    [fields_of_record; reflexivity|].
  destruct (invalidGiven (app.attrTopology attrs));
    [fields_of_record; reflexivity|].
  destruct (spaceIDMissing rel); fields_of_record; reflexivity.
Qed.

(** X11: a successful [ConvertLinkTypeToModel] keeps the topology invariant:
    if the topology of the record was one of the four literals it still is
    afterwards, and a topology the update carries is, after the merge, the
    topology of the record and one of the four literals. *)
Theorem ConvertLinkTypeToModel_keeps_topology_valid
  (in_ : app.WorkItemLinkTypeSingle) (out out' : WorkItemLinkType) :
  ConvertLinkTypeToModel in_ out = Return None out' ->
  (CheckValidTopology (Topology out) = None ->
   CheckValidTopology (Topology out') = None)
  /\ (forall t, givenAttribute app.attrTopology in_ = Some t ->
      Topology out' = t /\ CheckValidTopology t = None).
Proof.
  intros H.
  destruct (ConvertLinkTypeToModel_parts _ _ _ H)
    as (data & attrs & rel & Hd & Ha & Hr).
  rewrite (ConvertLinkTypeToModel_outcome _ _ _ _ _ Hd Ha Hr) in H.
  apply outcome_success in H.
  destruct H as (_ & _ & _ & Et & _ & ->). simpl.
  unfold givenAttribute. rewrite Hd, Ha.
  destruct (app.attrTopology attrs) as [t|]; simpl in *.
  - split; [intros _; exact Et|].
    intros t' E. injection E as <-. now split.
  - split; [tauto | discriminate].
Qed.

Lemma ConvertLinkTypeToModel_keeps_topology_valid_witness :
  Topology (set_Topology "tree" samples.bugBlocker) = "tree"
  /\ CheckValidTopology "tree" = None.
Proof.
  apply (proj2 (ConvertLinkTypeToModel_keeps_topology_valid
                  (samples.update None
                     (app.mkAttributes None None None None None (Some "tree"))
                     samples.noRelationships)
                  samples.bugBlocker
                  (set_Topology "tree" samples.bugBlocker) eq_refl)).
  reflexivity.
Defined.

(** X12: [ConvertLinkTypeToModel] reads nothing of an update but its ID, its
    six attributes and the identifiers inside its four relations: the type
    names and the links are ignored, and a relation without a data object
    counts as no relation.  Two updates that agree on what is read give the
    same outcome on every record. *)
Theorem ConvertLinkTypeToModel_reads_only
  (d1 d2 : app.WorkItemLinkTypeData) (attrs : app.WorkItemLinkTypeAttributes)
  (r1 r2 : app.WorkItemLinkTypeRelationships) (out : WorkItemLinkType) :
  app.dataAttributes d1 = Some attrs -> app.dataAttributes d2 = Some attrs ->
  app.dataRelationships d1 = Some r1 -> app.dataRelationships d2 = Some r2 ->
  app.dataID d1 = app.dataID d2 ->
  givenLinkCategory r1 = givenLinkCategory r2 ->
  givenSourceType r1 = givenSourceType r2 ->
  givenTargetType r1 = givenTargetType r2 ->
  givenSpace r1 = givenSpace r2 ->
  (spaceLacksID r1 <-> spaceLacksID r2) ->
  ConvertLinkTypeToModel (app.mkSingle (Some d1)) out
  = ConvertLinkTypeToModel (app.mkSingle (Some d2)) out.
Proof.
  intros Ha1 Ha2 Hr1 Hr2 Hid Hlc Hst Htt Hsp Hlack.
  rewrite (ConvertLinkTypeToModel_outcome (app.mkSingle (Some d1)) d1 attrs
             r1 out eq_refl Ha1 Hr1).
  rewrite (ConvertLinkTypeToModel_outcome (app.mkSingle (Some d2)) d2 attrs
             r2 out eq_refl Ha2 Hr2).
  unfold outcome. rewrite Hid, Hlc, Hst, Htt, Hsp.
  assert (Hm : spaceIDMissing r1 = spaceIDMissing r2).
  { destruct (spaceIDMissing r2) eqn:E2.
    - apply spaceIDMissing_true. apply Hlack. now apply spaceIDMissing_true.
    - apply spaceIDMissing_false. intros L. apply Hlack in L.
      apply spaceIDMissing_true in L. congruence. }
  rewrite Hm. reflexivity.
Qed.

Lemma ConvertLinkTypeToModel_reads_only_witness :
  ConvertLinkTypeToModel
    (app.mkSingle
       (Some (app.mkData "workitemlinktypes" None (Some samples.noAttributes)
                (Some (app.mkRelationships
                         (Some (app.mkLinkCategory None))
                         (Some (app.mkWorkItemType
                                  (Some (app.mkWorkItemTypeData
                                           "workitemtypes" (fill x77)))))
                         None
                         (Some (app.mkSpaces None None)))))))
    samples.bugBlocker
  = ConvertLinkTypeToModel
      (app.mkSingle
         (Some (app.mkData "anything" None (Some samples.noAttributes)
                  (Some (app.mkRelationships None
                           (Some (app.mkWorkItemType
                                    (Some (app.mkWorkItemTypeData
                                             "spaces" (fill x77)))))
                           None
                           (Some (app.mkSpaces None
                                    (Some (app.mkGenericLinks
                                             (Some "http://x"))))))))))
      samples.bugBlocker.
Proof.
  eapply (ConvertLinkTypeToModel_reads_only _ _ samples.noAttributes);
    try reflexivity.
  split; intros (sp & d & Hs & Hd & _); simpl in Hs; injection Hs as <-;
    discriminate Hd.
Defined.

(** X13: an update that has the three parts and carries nothing in them (no
    ID, no attribute, no relation with a data object) is merged without error
    and leaves the record exactly as it was. *)
Theorem ConvertLinkTypeToModel_empty_update
  (type : string) (rel : app.WorkItemLinkTypeRelationships)
  (out : WorkItemLinkType) :
  givenLinkCategory rel = None -> givenSourceType rel = None ->
  givenTargetType rel = None ->
  (forall sp, app.relSpace rel = Some sp -> app.spData sp = None) ->
  ConvertLinkTypeToModel
    (app.mkSingle
       (Some (app.mkData type None
                (Some (app.mkAttributes None None None None None None))
                (Some rel))))
    out
  = Return None out.
Proof.
  intros Hlc Hst Htt Hsp.
  erewrite ConvertLinkTypeToModel_outcome by reflexivity.
  assert (Hg : givenSpace rel = None).
  { unfold givenSpace. destruct (app.relSpace rel) as [sp|]; [|reflexivity].
    now rewrite (Hsp sp eq_refl). }
  assert (Hm : spaceIDMissing rel = false).
  { unfold spaceIDMissing.
    destruct (app.relSpace rel) as [sp|]; [|reflexivity].
    now rewrite (Hsp sp eq_refl). }
  rewrite outcome_merged by (try reflexivity; assumption).
  rewrite Hlc, Hst, Htt, Hg. destruct out. reflexivity.
Qed.

Lemma ConvertLinkTypeToModel_empty_update_witness :
  ConvertLinkTypeToModel
    (app.mkSingle
       (Some (app.mkData "workitemlinktypes" None
                (Some (app.mkAttributes None None None None None None))
                (Some (app.mkRelationships
                         (Some (app.mkLinkCategory None)) None None
                         (Some (app.mkSpaces None None)))))))
    samples.bugBlocker
  = Return None samples.bugBlocker.
Proof.
  apply ConvertLinkTypeToModel_empty_update; try reflexivity.
  intros sp H. simpl in H. injection H as <-. reflexivity.
Defined.

(** X14: a complete update makes any record valid: when the update carries
    a name, a forward name, a reverse name and a topology, and its four
    relations carry identifiers other than the nil UUID, the record left by a
    successful [ConvertLinkTypeToModel] passes [CheckValidForCreation],
    whatever the record was before (the zero record included). *)
Theorem ConvertLinkTypeToModel_complete_update
  (in_ : app.WorkItemLinkTypeSingle) (out out' : WorkItemLinkType)
  (data : app.WorkItemLinkTypeData) (attrs : app.WorkItemLinkTypeAttributes)
  (rel : app.WorkItemLinkTypeRelationships) :
  app.Data in_ = Some data ->
  app.dataAttributes data = Some attrs ->
  app.dataRelationships data = Some rel ->
  app.attrName attrs <> None -> app.attrForwardName attrs <> None ->
  app.attrReverseName attrs <> None -> app.attrTopology attrs <> None ->
  (exists u, givenSourceType rel = Some u /\ u <> Nil) ->
  (exists u, givenTargetType rel = Some u /\ u <> Nil) ->
  (exists u, givenLinkCategory rel = Some u /\ u <> Nil) ->
  (exists u, givenSpace rel = Some u /\ u <> Nil) ->
  ConvertLinkTypeToModel in_ out = Return None out' ->
  CheckValidForCreation out' = None.
Proof.
  intros Hd Ha Hr Hn Hf Hrv Ht (s & Es & Hs) (g & Eg & Hg) (c & Ec & Hc)
    (sp & Esp & Hsp) H.
  rewrite (ConvertLinkTypeToModel_outcome _ _ _ _ _ Hd Ha Hr) in H.
  apply outcome_success in H.
  destruct H as (En & Ef & Er & Et & _ & ->).
  apply CheckValidForCreation_ok. unfold validForCreation. simpl.
  rewrite Es, Eg, Ec, Esp.
  destruct (app.attrName attrs) as [n|]; [|contradiction].
  destruct (app.attrForwardName attrs) as [f|]; [|contradiction].
  destruct (app.attrReverseName attrs) as [r|]; [|contradiction].
  destruct (app.attrTopology attrs) as [t|]; [|contradiction].
  simpl in *. apply String.eqb_neq in En, Ef, Er.
  apply CheckValidTopology_ok in Et. repeat split; assumption.
Qed.

Lemma ConvertLinkTypeToModel_complete_update_witness :
  CheckValidForCreation
    (mkWorkItemLinkType samples.created Nil "Parent" None 0 "tree"
       (fill x22) (fill x33) "parent of" "child of" (fill x44) (fill x55))
  = None.
Proof.
  apply (ConvertLinkTypeToModel_complete_update
           (samples.update None
              (app.mkAttributes (Some "Parent") None None (Some "parent of")
                 (Some "child of") (Some "tree"))
              (app.mkRelationships
                 (Some (app.mkLinkCategory
                          (Some (app.mkLinkCategoryData "c" (fill x44)))))
                 (Some (app.mkWorkItemType
                          (Some (app.mkWorkItemTypeData "t" (fill x22)))))
                 (Some (app.mkWorkItemType
                          (Some (app.mkWorkItemTypeData "t" (fill x33)))))
                 (Some (app.mkSpaces
                          (Some (app.mkSpacesData None (Some (fill x55))))
                          None))))
           (mkWorkItemLinkType samples.created Nil EmptyString None 0
              EmptyString Nil Nil EmptyString EmptyString Nil Nil)
           _ _ _ _ eq_refl eq_refl eq_refl);
    try (simpl; discriminate); try reflexivity;
    eexists; (split; [reflexivity|]);
    intros E; apply uuid_Equal_eq in E; vm_compute in E; discriminate E.
Defined.

(** ** The representation and the merge *)

Section Representation.

Variable RequestData : Type.
Variable AbsoluteURL : RequestData -> string -> string.
Variable SpaceHref : string -> string.
Variable UUIDString : UUID -> string.
Variables EndpointWorkItemLinkTypes EndpointWorkItemLinkCategories
  EndpointWorkItemTypes : string.

Let fromModel : RequestData -> WorkItemLinkType -> app.WorkItemLinkTypeSingle
  := ConvertLinkTypeFromModel RequestData AbsoluteURL SpaceHref UUIDString
       EndpointWorkItemLinkTypes EndpointWorkItemLinkCategories
       EndpointWorkItemTypes.

(** X15: the representation [ConvertLinkTypeFromModel] builds of a link type
    with a non-empty name, forward name and reverse name and a valid topology
    is merged by [ConvertLinkTypeToModel] into any record without error, and
    the record then holds every field of the link type except the lifecycle
    metadata, which stays, and except an unset description, in place of which
    the description of the record stays.  The identifiers need not be
    non-nil for this. *)
Theorem ConvertLinkTypeFromModel_merged_back
  (request : RequestData) (t out : WorkItemLinkType) :
  Name t <> EmptyString -> ForwardName t <> EmptyString ->
  ReverseName t <> EmptyString -> CheckValidTopology (Topology t) = None ->
  ConvertLinkTypeToModel
    (ConvertLinkTypeFromModel RequestData AbsoluteURL SpaceHref UUIDString
       EndpointWorkItemLinkTypes EndpointWorkItemLinkCategories
       EndpointWorkItemTypes request t)
    out
  = Return None
      (mkWorkItemLinkType (Lifecycle out) (ID t) (Name t)
         (match Description t with
          | Some d => Some d
          | None => Description out
          end)
         (Version t) (Topology t) (SourceTypeID t) (TargetTypeID t)
         (ForwardName t) (ReverseName t) (LinkCategoryID t) (SpaceID t)).
Proof.
  intros Hn Hf Hr Ht. apply String.eqb_neq in Hn, Hf, Hr.
  erewrite ConvertLinkTypeToModel_outcome by reflexivity.
  rewrite outcome_merged by (try reflexivity; assumption).
  simpl. destruct (Description t); reflexivity.
Qed.

(** X16: on the representation of a link type [ConvertLinkTypeToModel] never
    fails one of the three presence guards and never panics: it returns nil
    exactly when the name, forward name and reverse name of the link type are
    non-empty and its topology is valid, and otherwise the error names one of
    these four attributes. *)
Theorem ConvertLinkTypeFromModel_merge_outcome
  (request : RequestData) (t out : WorkItemLinkType) :
  ((exists out',
      ConvertLinkTypeToModel
        (ConvertLinkTypeFromModel RequestData AbsoluteURL SpaceHref UUIDString
           EndpointWorkItemLinkTypes EndpointWorkItemLinkCategories
           EndpointWorkItemTypes request t)
        out
      = Return None out') <->
   Name t <> EmptyString /\ ForwardName t <> EmptyString
   /\ ReverseName t <> EmptyString /\ validTopology (Topology t))
  /\ (forall out',
        ConvertLinkTypeToModel
          (ConvertLinkTypeFromModel RequestData AbsoluteURL SpaceHref
             UUIDString EndpointWorkItemLinkTypes
             EndpointWorkItemLinkCategories EndpointWorkItemTypes request t)
          out
        <> Panic out')
  /\ (forall e out',
        ConvertLinkTypeToModel
          (ConvertLinkTypeFromModel RequestData AbsoluteURL SpaceHref
             UUIDString EndpointWorkItemLinkTypes
             EndpointWorkItemLinkCategories EndpointWorkItemTypes request t)
          out
        = Return (Some e) out' ->
        List.In (parameter (Cause e))
          [ "data.attributes.name"; "data.attributes.forward_name";
            "data.attributes.reverse_name"; "topolgy" ]).
Proof.
  fold (fromModel request t).
  assert (Ho : exists data attrs rel,
             ConvertLinkTypeToModel (fromModel request t) out
             = outcome data attrs rel out
             /\ emptyGiven (app.attrName attrs) = (Name t =? EmptyString)
             /\ emptyGiven (app.attrForwardName attrs)
                = (ForwardName t =? EmptyString)
             /\ emptyGiven (app.attrReverseName attrs)
                = (ReverseName t =? EmptyString)
             /\ invalidGiven (app.attrTopology attrs)
                = CheckValidTopology (Topology t)
             /\ spaceIDMissing rel = false).
  { eexists _, _, _. split.
    - apply ConvertLinkTypeToModel_outcome; reflexivity.
    - repeat split. }
  destruct Ho as (data & attrs & rel & -> & En & Ef & Er & Et & Es).
  split; [split|split].
  - intros [out' H]. apply outcome_success in H.
    destruct H as (En' & Ef' & Er' & Et' & _).
    rewrite En in En'. rewrite Ef in Ef'. rewrite Er in Er'.
    rewrite Et in Et'. apply String.eqb_neq in En', Ef', Er'.
    apply CheckValidTopology_ok in Et'. auto.
  - intros (Hn & Hf & Hr & Ht).
    apply String.eqb_neq in Hn, Hf, Hr. apply CheckValidTopology_ok in Ht.
    rewrite outcome_merged by congruence. eexists. reflexivity.
  - intros out'. unfold outcome. rewrite Es.
    destruct (emptyGiven (app.attrName attrs)); [discriminate|].
    destruct (emptyGiven (app.attrForwardName attrs)); [discriminate|].
    destruct (emptyGiven (app.attrReverseName attrs)); [discriminate|].
    destruct (invalidGiven (app.attrTopology attrs)); discriminate.
  - intros e out'. unfold outcome. rewrite Es, Et.
    destruct (emptyGiven (app.attrName attrs));
      [intros H; injection H as <- _; simpl; tauto|].
    destruct (emptyGiven (app.attrForwardName attrs));
      [intros H; injection H as <- _; simpl; tauto|].
    destruct (emptyGiven (app.attrReverseName attrs));
      [intros H; injection H as <- _; simpl; tauto|].
    destruct (CheckValidTopology (Topology t)) as [err|] eqn:Ec;
      [|discriminate].
    intros H; injection H as <- _.
    apply CheckValidTopology_Some in Ec. subst err. simpl. tauto.
Qed.

(** X17: the representation carries the eleven persisted attributes and
    nothing of the lifecycle metadata: two link types have the same
    representation exactly when they agree on ID, name, description, version,
    topology, forward name, reverse name and the four relationship
    identifiers. *)
Theorem ConvertLinkTypeFromModel_carries
  (request : RequestData) (t u : WorkItemLinkType) :
  ConvertLinkTypeFromModel RequestData AbsoluteURL SpaceHref UUIDString
    EndpointWorkItemLinkTypes EndpointWorkItemLinkCategories
    EndpointWorkItemTypes request t
  = ConvertLinkTypeFromModel RequestData AbsoluteURL SpaceHref UUIDString
      EndpointWorkItemLinkTypes EndpointWorkItemLinkCategories
      EndpointWorkItemTypes request u
  <->
  ID t = ID u /\ Name t = Name u /\ Description t = Description u
  /\ Version t = Version u /\ Topology t = Topology u
  /\ SourceTypeID t = SourceTypeID u /\ TargetTypeID t = TargetTypeID u
  /\ ForwardName t = ForwardName u /\ ReverseName t = ReverseName u
  /\ LinkCategoryID t = LinkCategoryID u /\ SpaceID t = SpaceID u.
Proof.
  unfold ConvertLinkTypeFromModel. split.
  - intros H. injection H. intros. repeat split; assumption.
  - intros (-> & -> & -> & -> & -> & -> & -> & -> & -> & -> & ->).
    reflexivity.
Qed.

End Representation.

Lemma ConvertLinkTypeFromModel_merged_back_witness :
  ConvertLinkTypeToModel
    (ConvertLinkTypeFromModel unit (fun _ href => href)
       (fun id => "/api/spaces/" ++ id) (fun _ => "space")
       "workitemlinktypes" "workitemlinkcategories" "workitemtypes"
       tt (set_SourceTypeID Nil samples.bugBlocker))
    (set_Description (Some "stale") samples.bugBlocker)
  = Return None
      (set_Description (Some "stale")
         (set_SourceTypeID Nil samples.bugBlocker)).
Proof.
  apply (ConvertLinkTypeFromModel_merged_back unit (fun _ href => href)
           (fun id => "/api/spaces/" ++ id) (fun _ => "space")
           "workitemlinktypes" "workitemlinkcategories" "workitemtypes"
           tt (set_SourceTypeID Nil samples.bugBlocker)
           (set_Description (Some "stale") samples.bugBlocker));
    try reflexivity; simpl; discriminate.
Defined.

(** ** ConvertLinkTypeToModel: the state after a refused topology *)

(** X18: when the three parts are present, no name that is present is
    empty, and the update carries a topology that is not one of the four
    literals, [ConvertLinkTypeToModel] returns the topology error under a
    stack, and the record behind [out] then has the ID, name, description,
    version, forward name and reverse name of the update merged in, while its
    topology, its four relationship identifiers and its lifecycle metadata
    are as before. *)
Theorem ConvertLinkTypeToModel_refused_topology
  (in_ : app.WorkItemLinkTypeSingle) (out : WorkItemLinkType)
  (data : app.WorkItemLinkTypeData) (attrs : app.WorkItemLinkTypeAttributes)
  (rel : app.WorkItemLinkTypeRelationships) (t : string) :
  app.Data in_ = Some data ->
  app.dataAttributes data = Some attrs ->
  app.dataRelationships data = Some rel ->
  app.attrName attrs <> Some EmptyString ->
  app.attrForwardName attrs <> Some EmptyString ->
  app.attrReverseName attrs <> Some EmptyString ->
  app.attrTopology attrs = Some t -> ~ validTopology t ->
  ConvertLinkTypeToModel in_ out
  = Return
      (Some (WithStack
               (BadParameter
                  (mkBadParameterError "topolgy" (VString t)
                     (Some topologyExpected)))))
      (mkWorkItemLinkType (Lifecycle out)
         (orKeep (app.dataID data) (ID out))
         (orKeep (app.attrName attrs) (Name out))
         (match app.attrDescription attrs with
          | Some d => Some d
          | None => Description out
          end)
         (orKeep (app.attrVersion attrs) (Version out))
         (Topology out) (SourceTypeID out) (TargetTypeID out)
         (orKeep (app.attrForwardName attrs) (ForwardName out))
         (orKeep (app.attrReverseName attrs) (ReverseName out))
         (LinkCategoryID out) (SpaceID out)).
Proof.
  intros Hd Ha Hr Hn Hf Hrv Ht Hbad.
  apply emptyGiven_false_iff in Hn, Hf, Hrv.
  rewrite (ConvertLinkTypeToModel_outcome _ _ _ _ _ Hd Ha Hr).
  unfold outcome. rewrite Hn, Hf, Hrv, Ht. simpl invalidGiven.
  rewrite (CheckValidTopology_error t Hbad).
  destruct out. fields_of_record. simpl.
  destruct (app.attrDescription attrs); reflexivity.
Qed.

Lemma ConvertLinkTypeToModel_refused_topology_witness :
  ConvertLinkTypeToModel
    (samples.update (Some (fill x99))
       (app.mkAttributes (Some "Renamed") None (Some 7%Z) None None
          (Some "ring"))
       samples.noRelationships)
    samples.bugBlocker
  = Return
      (Some (WithStack
               (BadParameter
                  (mkBadParameterError "topolgy" (VString "ring")
                     (Some topologyExpected)))))
      (set_Version 7 (set_Name "Renamed" (set_ID (fill x99)
                                            samples.bugBlocker))).
Proof.
  apply (ConvertLinkTypeToModel_refused_topology
           (samples.update (Some (fill x99))
              (app.mkAttributes (Some "Renamed") None (Some 7%Z) None None
                 (Some "ring"))
              samples.noRelationships)
           samples.bugBlocker _ _ _ "ring" eq_refl eq_refl eq_refl);
    try reflexivity; try (simpl; discriminate).
  intros [H|[H|[H|H]]]; discriminate H.
Defined.
